(** * company-news-backend: the three gateway endpoints

    A shallow embedding of [src/server.js] and [src/nodejs-backend.js].

    The handlers are Express callbacks that make one [axios.get] call and
    answer with [res.json] / [res.status(..).json].  They are modelled as
    functions from the request parameter and the outcome of the outbound
    call to the response that is sent, in an exception monad for the
    [try { .. } catch (error) { .. }] blocks.

    Scope of the model.
    - Upstream payloads are parsed JSON: [value].  The numbers of the
      model are those written as integer literals: [VNum n] is the number
      that [JSON.parse] reads the literal [n] as, the double nearest to
      [n].  Zero tests and comparisons with a small constant are the same
      on [n] and on that double; printing rounds first.
    - Strings are modelled as ASCII text: [toLowerCase], [toUpperCase] and
      [trim] act on ASCII letters and ASCII white space and leave every
      other code alone, and a length is a number of characters.  On text
      with other characters JavaScript maps more letters and counts UTF-16
      units, so a theorem that depends on the case or on the length of a
      text from the payload or the request carries the hypothesis
      [ascii_only].
    - The statements that can throw inside a [try] block are modelled,
      the conversions to a string of the [console.log] templates
      included; a [console.log] of a string or of a number is left out.
    - The text of a [TypeError] raised by the engine is engine-defined; the
      model uses a description of the faulting operation. *)

From Stdlib Require Import ZArith Ascii String List Bool Lia DecimalString.
From stdpp Require Import base list strings.

#[local] Set Warnings "-register-all".
Open Scope string_scope.
Open Scope Z_scope.

(* ================================================================== *)
(** ** JavaScript values and exceptions                                *)
(* ================================================================== *)

(** Parsed JSON, plus [VHost name] for the objects a lookup on an object
    literal finds on [Object.prototype] ([VHost "constructor"] is
    [Object.prototype.constructor]; [VHost "__proto__"] is
    [Object.prototype] itself).  An object is the list of its own
    properties; the first binding of a key is the one that is read. *)
Inductive value : Type :=
| VUndefined
| VNull
| VBool (b : bool)
| VNum (n : Z)
| VStr (s : string)
| VArr (items : list value)
| VObj (props : list (string * value))
| VHost (name : string).

(** What a handler's [catch (error)] can receive: a [TypeError] of the
    engine, or the rejection of [axios.get] ([error.message], and
    [error.response] with its [status] and [data] when the server
    answered with a non-2xx status). *)
Inductive exn : Type :=
| TypeError (what : string)
| AxiosError (message : string) (response : option (Z * value)).

Inductive result (A : Type) : Type :=
| Ok (a : A)
| Throw (e : exn).
Arguments Ok {A} a.
Arguments Throw {A} e.

Definition bind {A B : Type} (m : result A) (k : A -> result B) : result B :=
  match m with
  | Ok a => k a
  | Throw e => Throw e
  end.

Notation "'let*' x ':=' m 'in' k" := (bind m (fun x => k))
  (at level 10, x name, m at level 100, k at level 200).

(** ToBoolean. *)
Definition truthy (v : value) : bool :=
  match v with
  | VUndefined | VNull => false
  | VBool b => b
  | VNum n => negb (n =? 0)
  | VStr s => negb (String.eqb s "")
  | VArr _ | VObj _ | VHost _ => true
  end.

(** [a || b] on values. *)
Definition or_else (a b : value) : value := if truthy a then a else b.

Fixpoint lookup_prop (k : string) (props : list (string * value)) : value :=
  match props with
  | [] => VUndefined
  | (k', v) :: rest => if String.eqb k k' then v else lookup_prop k rest
  end.

(** [v[k]] for a [v] that is neither [null] nor [undefined], and a key [k]
    that no prototype defines (every key the handlers read from a payload
    is such a key): own properties of objects, [undefined] elsewhere. *)
Definition field (k : string) (v : value) : value :=
  match v with
  | VObj props => lookup_prop k props
  | _ => VUndefined
  end.

Definition nullish (v : value) : bool :=
  match v with
  | VUndefined | VNull => true
  | _ => false
  end.

(** [v[k]] / [v.k]: a [TypeError] on [null] and [undefined]. *)
Definition getProp (v : value) (k : string) : result value :=
  if nullish v
  then Throw (TypeError ("Cannot read properties of null or undefined (reading '" ++ k ++ "')"))
  else Ok (field k v).

(** [v?.k] *)
Definition optChain (v : value) (k : string) : result value :=
  if nullish v then Ok VUndefined else getProp v k.

(* ------------------------------------------------------------------ *)
(** *** Strings                                                         *)
(* ------------------------------------------------------------------ *)

Definition lower_ascii (c : ascii) : ascii :=
  let n := nat_of_ascii c in
  if (Nat.leb 65 n && Nat.leb n 90)%bool then ascii_of_nat (n + 32) else c.

Definition upper_ascii (c : ascii) : ascii :=
  let n := nat_of_ascii c in
  if (Nat.leb 97 n && Nat.leb n 122)%bool then ascii_of_nat (n - 32) else c.

Fixpoint map_string (f : ascii -> ascii) (s : string) : string :=
  match s with
  | EmptyString => EmptyString
  | String c s' => String (f c) (map_string f s')
  end.

(** [s.toLowerCase()] and [s.toUpperCase()] on ASCII text. *)
Definition toLowerCase (s : string) : string := map_string lower_ascii s.
Definition toUpperCase (s : string) : string := map_string upper_ascii s.

(** TAB, LF, VT, FF, CR and SPACE. *)
Definition is_space (c : ascii) : bool :=
  let n := nat_of_ascii c in
  ((Nat.leb 9 n && Nat.leb n 13) || Nat.eqb n 32)%bool.

Fixpoint trimStart (s : string) : string :=
  match s with
  | EmptyString => EmptyString
  | String c s' => if is_space c then trimStart s' else s
  end.

(** Drops the trailing white space: a character stays when it is no space
    or something stays after it. *)
Fixpoint trimEnd (s : string) : string :=
  match s with
  | EmptyString => EmptyString
  | String c s' =>
      match trimEnd s' with
      | EmptyString => if is_space c then EmptyString else String c EmptyString
      | t => String c t
      end
  end.

Definition trim (s : string) : string := trimEnd (trimStart s).

Fixpoint startsWith (s p : string) : bool :=
  match p, s with
  | EmptyString, _ => true
  | String _ _, EmptyString => false
  | String a p', String b s' => (Ascii.eqb a b && startsWith s' p')%bool
  end.

(** [s.includes(sub)] *)
Fixpoint includes (s sub : string) : bool :=
  (startsWith s sub ||
   match s with
   | EmptyString => false
   | String _ s' => includes s' sub
   end)%bool.

(** [s.split('T')[0]]: the text before the first ['T'], all of [s] when
    there is none. *)
Fixpoint beforeT (s : string) : string :=
  match s with
  | EmptyString => EmptyString
  | String c s' => if Ascii.eqb c "T" then EmptyString else String c (beforeT s')
  end.

(** [v.toLowerCase()]: only strings have the method. *)
Definition toLowerCaseV (v : value) : result string :=
  match v with
  | VStr s => Ok (toLowerCase s)
  | _ => Throw (TypeError "toLowerCase is not a function")
  end.

(** [v.split('T')[0]] *)
Definition splitT0 (v : value) : result value :=
  match v with
  | VStr s => Ok (VStr (beforeT s))
  | _ => Throw (TypeError "split is not a function")
  end.

Definition is_str (s : string) (v : value) : bool :=
  match v with
  | VStr t => String.eqb t s
  | _ => false
  end.

(** [v.includes(s)] for a string [s]: a substring test on strings, a
    membership test on arrays; no other value has the method. *)
Definition includesV (v : value) (s : string) : result bool :=
  match v with
  | VStr t => Ok (includes t s)
  | VArr items => Ok (existsb (is_str s) items)
  | _ => Throw (TypeError "includes is not a function")
  end.

(** [v.length], [None] for [undefined]. *)
Definition lengthV (v : value) : option nat :=
  match v with
  | VStr s => Some (String.length s)
  | VArr items => Some (List.length items)
  | _ => None
  end.

(** [n < v.length]; a comparison with [undefined] is false. *)
Definition lt_length (n : nat) (v : value) : bool :=
  match lengthV v with
  | Some m => Nat.ltb n m
  | None => false
  end.

Fixpoint chars (s : string) : list value :=
  match s with
  | EmptyString => []
  | String c s' => VStr (String c EmptyString) :: chars s'
  end.

(** The elements [for (const x of v)] visits, and [v[0]], [v.length] of
    the same [v]: arrays and strings are the iterable JSON values. *)
Definition iterate (v : value) : result (list value) :=
  match v with
  | VArr items => Ok items
  | VStr s => Ok (chars s)
  | _ => Throw (TypeError "value is not iterable")
  end.

(** The receiver of [.filter(..)]: of the JSON values only arrays have
    the method. *)
Definition asArray (v : value) : result (list value) :=
  match v with
  | VArr items => Ok items
  | _ => Throw (TypeError "filter is not a function")
  end.

(** [props] has an own property [k]. *)
Fixpoint has_own (k : string) (props : list (string * value)) : bool :=
  match props with
  | [] => false
  | (k', _) :: rest => (String.eqb k k' || has_own k rest)%bool
  end.

Fixpoint zeros (n : nat) : string :=
  match n with
  | O => ""
  | S n' => String "0" (zeros n')
  end.

Definition decimal (n : Z) : string := NilZero.string_of_int (Z.to_int n).

(** The digits of a positive integer-valued double [v]: the greatest power
    of ten [10^p], [p] at most the given one, that has a multiple [c * 10^p]
    in the rounding interval of [v] (from [lo / 4] to [hi / 4], ends
    included when [incl]), with the [c] closest to [v]; so [c] has the least
    number of digits that reads back as [v]. *)
Fixpoint shortestDigits (p : nat) (v lo hi : Z) (incl : bool) : Z * nat :=
  let step := 4 * 10 ^ Z.of_nat p in
  let cmin0 := - ((- lo) / step) in
  let cmax0 := hi / step in
  let cmin1 := if (negb incl && (cmin0 * step =? lo))%bool then cmin0 + 1 else cmin0 in
  let cmax := if (negb incl && (cmax0 * step =? hi))%bool then cmax0 - 1 else cmax0 in
  let cmin := Z.max 1 cmin1 in
  if cmin <=? cmax then
    (Z.min (Z.max ((2 * v + 10 ^ Z.of_nat p) / (2 * 10 ^ Z.of_nat p)) cmin) cmax, p)
  else
    match p with
    | O => (v, O)
    | S p' => shortestDigits p' v lo hi incl
    end.

(** [String(v)] for a positive integer [v] that is a double: the shortest
    digits that read back as [v], followed by zeros, or in exponent
    notation from [1e+21] on. *)
Definition positiveToString (v : Z) : string :=
  let e := Z.max 0 (Z.log2 v + 1 - 53) in
  let m := v / 2 ^ e in
  let hi := 4 * v + 2 ^ (e + 1) in
  let lo := 4 * v - (if m =? 2 ^ 52 then 2 ^ e else 2 ^ (e + 1)) in
  let (c, p) := shortestDigits (String.length (decimal v)) v lo hi (Z.even m) in
  let s := decimal c in
  let n := (String.length s + p)%nat in
  if Nat.leb n 21 then s ++ zeros p
  else
    match s with
    | EmptyString => s
    | String d EmptyString => String d ("e+" ++ decimal (Z.of_nat (n - 1)))
    | String d rest => String d ("." ++ rest ++ "e+" ++ decimal (Z.of_nat (n - 1)))
    end.

(** The double that the integer literal [v], positive, is read as: the
    nearest one, the even one of two that are equally near; none past the
    greatest double, where the literal reads as [Infinity]. *)
Definition nearestDouble (v : Z) : option Z :=
  let e := Z.max 0 (Z.log2 v + 1 - 53) in
  let q := v / 2 ^ e in
  let r := v mod 2 ^ e in
  let m := if 2 * r <? 2 ^ e then q
           else if 2 ^ e <? 2 * r then q + 1
           else q + q mod 2 in
  if m * 2 ^ e <? 2 ^ 1024 then Some (m * 2 ^ e) else None.

Definition magnitudeToString (v : Z) : string :=
  match nearestDouble v with
  | Some d => positiveToString d
  | None => "Infinity"
  end.

(** [String(n)] for the number that the integer literal [n] is read as. *)
Definition numberToString (n : Z) : string :=
  if n =? 0 then "0"
  else if n <? 0 then "-" ++ magnitudeToString (- n)
  else magnitudeToString n.

(** [String(v)], as a template literal and [encodeURIComponent] apply it.
    An object is printed by [Object.prototype.toString] unless it has an
    own property [toString]: a parsed value is never callable, and
    [valueOf] then gives back the object, so the conversion throws.  An
    array is printed by [join], which converts its elements in order. *)
Fixpoint toStr (v : value) : result string :=
  match v with
  | VUndefined => Ok "undefined"
  | VNull => Ok "null"
  | VBool true => Ok "true"
  | VBool false => Ok "false"
  | VNum n => Ok (numberToString n)
  | VStr s => Ok s
  | VArr items =>
      (fix join (l : list value) : result string :=
         match l with
         | [] => Ok ""
         | x :: rest =>
             let* sx := (if nullish x then Ok "" else toStr x) in
             match rest with
             | [] => Ok sx
             | _ =>
                 let* sr := join rest in
                 Ok (sx ++ "," ++ sr)
             end
         end) items
  | VObj props =>
      if has_own "toString" props
      then Throw (TypeError "Cannot convert object to primitive value")
      else Ok "[object Object]"
  | VHost "__proto__" => Ok "[object Object]"
  | VHost "constructor" => Ok "function Object() { [native code] }"
  | VHost name => Ok ("function " ++ name ++ "() { [native code] }")
  end.

Definition hex_digit (n : nat) : ascii :=
  ascii_of_nat (if Nat.ltb n 10 then 48 + n else 55 + n).

(** Letters, digits and [- _ . ! ~ * ' ( )] stay as they are. *)
Definition uri_unreserved (c : ascii) : bool :=
  let n := nat_of_ascii c in
  ((Nat.leb 65 n && Nat.leb n 90) || (Nat.leb 97 n && Nat.leb n 122) ||
   (Nat.leb 48 n && Nat.leb n 57) ||
   existsb (Nat.eqb n) [45; 95; 46; 33; 126; 42; 39; 40; 41]%nat)%bool.

(** [encodeURIComponent] on ASCII text: every other character becomes
    [%XX]. *)
Fixpoint encodeURIComponent (s : string) : string :=
  match s with
  | EmptyString => EmptyString
  | String c s' =>
      if uri_unreserved c then String c (encodeURIComponent s')
      else
        let n := nat_of_ascii c in
        String "%" (String (hex_digit (n / 16)) (String (hex_digit (n mod 16))
          (encodeURIComponent s')))
  end.

(* ------------------------------------------------------------------ *)
(** *** Requests and responses                                          *)
(* ------------------------------------------------------------------ *)

(** One [axios.get(url, { params, timeout: 10000 })]. *)
Record request : Type := Request {
  req_url : string;
  req_params : list (string * value)
}.

(** What the outbound call gives back: [response.data] of the resolved
    promise, or the error it rejects with (time-out, network failure,
    non-2xx status). *)
Definition upstream : Type := result value.

(** [res.status(status).json(body)]; [res.json(body)] has status 200.
    [body] is the object handed to [res.json]: a property whose value is
    [undefined] is left out of the JSON text that is sent. *)
Record response : Type := Response {
  status : Z;
  body : value
}.

Definition err_message (e : exn) : string :=
  match e with
  | TypeError what => what
  | AxiosError message _ => message
  end.

(** [error.response?.status] *)
Definition err_status (e : exn) : option Z :=
  match e with
  | AxiosError _ (Some (st, _)) => Some st
  | _ => None
  end.

(** [error.response?.data?.message] *)
Definition err_data_message (e : exn) : value :=
  match e with
  | AxiosError _ (Some (_, data)) => if nullish data then VUndefined else field "message" data
  | _ => VUndefined
  end.

(** [Array.prototype.filter] with a callback that can throw: the elements
    are visited in order and the first exception ends the call. *)
Fixpoint filterM {A : Type} (p : A -> result bool) (l : list A) : result (list A) :=
  match l with
  | [] => Ok []
  | x :: rest =>
      let* b := p x in
      let* rest' := filterM p rest in
      Ok (if b then x :: rest' else rest')
  end.

(** [Array.prototype.map] with a callback that can throw. *)
Fixpoint mapM {A B : Type} (f : A -> result B) (l : list A) : result (list B) :=
  match l with
  | [] => Ok []
  | x :: rest =>
      let* y := f x in
      let* rest' := mapM f rest in
      Ok (y :: rest')
  end.

(* ------------------------------------------------------------------ *)
(** *** The environment                                                 *)
(* ------------------------------------------------------------------ *)

(** [process.env]: a variable is a string or is not set. *)
Definition environment : Type := string -> option string.

(** [process.env[name] || fallback] *)
Definition envOr (env : environment) (name : string) (fallback : value) : value :=
  match env name with
  | Some s => or_else (VStr s) fallback
  | None => fallback
  end.

(** The double quote of the query templates. *)
Definition dquote : string := String (ascii_of_nat 34) EmptyString.

Definition NEWS_API_KEY : string := "86c6fb4088724044af50f2192958afaf".
Definition ALPHA_VANTAGE_KEY : string := "45J316M6H07IFWGM".

(* ================================================================== *)
(** ** src/server.js                                                    *)
(* ================================================================== *)

Module Server.

(** *** GET /api/company-news/:companyName *)

(** The callback of [articles.filter(..)]. *)
Definition keepArticle (article : value) : result bool :=
  let* title := getProp article "title" in
  if negb (truthy title) then Ok false else
  let* source := getProp article "source" in
  let* name := optChain source "name" in
  if negb (truthy name) then Ok false else
  if is_str "[Removed]" title then Ok false else
  let* lowered := toLowerCaseV title in
  Ok (negb (includes lowered "removed")).

(** The callback of [.map(..)]; [now] is [new Date().toISOString()]. *)
Definition formatArticle (now : string) (article : value) : result value :=
  let* title := getProp article "title" in
  let* source := getProp article "source" in
  let* name := getProp source "name" in
  let* publishedAt := getProp article "publishedAt" in
  let* date := (if truthy publishedAt then splitT0 publishedAt else Ok (VStr (beforeT now))) in
  let* description := getProp article "description" in
  let* url := getProp article "url" in
  let* urlToImage := getProp article "urlToImage" in
  Ok (VObj [("title", title);
            ("source", name);
            ("date", date);
            ("summary", or_else description (VStr "No summary available"));
            ("url", url);
            ("imageUrl", urlToImage)]).

(** [articles.filter(..).slice(0, 8)] *)
Definition retained (articles : list value) : result (list value) :=
  let* kept := filterM keepArticle articles in
  Ok (take 8 kept).

(** [formattedNews]: [articles.filter(..).slice(0, 8).map(..)] *)
Definition formattedNews (now : string) (articles : list value) : result (list value) :=
  let* kept := retained articles in
  mapM (formatArticle now) kept.

Definition newsRequest (companyName : string) : request :=
  Request "https://newsapi.org/v2/everything"
    [("q", VStr (dquote ++ companyName ++ dquote ++ " OR " ++
                 dquote ++ companyName ++ " company" ++ dquote ++ " OR " ++
                 dquote ++ companyName ++ " stock" ++ dquote));
     ("sortBy", VStr "publishedAt");
     ("pageSize", VNum 12);
     ("language", VStr "en");
     ("apiKey", VStr NEWS_API_KEY)].

(** The handler after the outbound call.  [now] stands for every
    [new Date().toISOString()] of the request. *)
Definition companyNewsOn (now companyName : string) (up : upstream) : response :=
  match
    (let* data := up in
     let* articles0 := getProp data "articles" in
     let* articles := asArray (or_else articles0 (VArr [])) in
     let* news := formattedNews now articles in
     let* totalResults := getProp data "totalResults" in
     Ok (VObj [("companyName", VStr companyName);
               ("totalResults", or_else totalResults (VNum 0));
               ("news", VArr news)]))
  with
  | Ok json => Response 200 json
  | Throw error =>
      match err_status error with
      | Some 426 =>
          Response 426
            (VObj [("error", VStr "NewsAPI requires upgrade for this request");
                   ("details", VStr "Free tier has limitations on search parameters")])
      | _ =>
          Response 500
            (VObj [("error", VStr "Failed to fetch company news");
                   ("details", or_else (err_data_message error) (VStr (err_message error)));
                   ("suggestion", VStr "Try a more specific company name or try again later")])
      end
  end.

(** The handler: the requests it issues, in order, and its response. *)
Definition companyNews (net : request -> upstream) (now companyName : string)
  : list request * response :=
  let req := newsRequest companyName in
  ([req], companyNewsOn now companyName (net req)).

(** *** GET /api/company-info/:symbol *)

Definition infoRequest (symbol : string) : request :=
  Request "https://www.alphavantage.co/query"
    [("function", VStr "OVERVIEW");
     ("symbol", VStr (toUpperCase symbol));
     ("apikey", VStr ALPHA_VANTAGE_KEY)].

(** The [annualReport] property; [data] is neither [null] nor [undefined]
    where it is built.  The template literal of the title and
    [encodeURIComponent] each convert [data.Name || symbol] to a string,
    which can throw. *)
Definition annualReport (symbol : string) (data : value) : result value :=
  if truthy (field "Symbol" data) then
    let* titleName := toStr (or_else (field "Name" data) (VStr symbol)) in
    let* urlName := toStr (or_else (field "Name" data) (VStr symbol)) in
    Ok (VObj [("year", VStr "2023");
              ("title", VStr (titleName ++ " Annual Report 2023"));
              ("url", VStr ("https://www.sec.gov/edgar/search/#/entityName=" ++
                            encodeURIComponent urlName));
              ("type", VStr "SEC EDGAR Database")])
  else Ok VNull.

(** [companyInfo] *)
Definition companyInfo (symbol : string) (data : value) : result value :=
  let* report := annualReport symbol data in
  Ok (VObj [("name", or_else (field "Name" data) (VStr "Unknown Company"));
            ("symbol", or_else (field "Symbol" data) (VStr (toUpperCase symbol)));
            ("sector", or_else (field "Sector" data) (VStr "Not Available"));
            ("industry", or_else (field "Industry" data) (VStr "Not Available"));
            ("marketCap", or_else (field "MarketCapitalization" data) (VStr "Not Available"));
            ("description", or_else (field "Description" data) (VStr "No description available"));
            ("exchange", or_else (field "Exchange" data) (VStr "Not Available"));
            ("country", or_else (field "Country" data) (VStr "Not Available"));
            ("annualReport", report)]).

Definition rateLimitedInfo : response :=
  Response 429
    (VObj [("error", VStr "API rate limit reached");
           ("suggestion", VStr "Alpha Vantage allows 5 requests per minute. Please try again in a moment.")]).

Definition badRequestInfo (information : value) : response :=
  Response 400
    (VObj [("error", VStr "API request issue");
           ("details", information)]).

Definition notFoundInfo : response :=
  Response 404
    (VObj [("error", VStr "Company not found");
           ("suggestion", VStr "Please check the stock symbol and try again")]).

Definition companyInfoOn (symbol : string) (up : upstream) : response :=
  match
    (let* data := up in
     let* note := getProp data "Note" in
     if truthy note then Ok rateLimitedInfo else
     let* information := getProp data "Information" in
     if truthy information then Ok (badRequestInfo information) else
     let* name := getProp data "Name" in
     let* sym := getProp data "Symbol" in
     if (negb (truthy name) && negb (truthy sym))%bool then Ok notFoundInfo else
     let* info := companyInfo symbol data in
     (* console.log(`... ${data.Name || symbol}`) *)
     let* logged := toStr (or_else (field "Name" data) (VStr symbol)) in
     Ok (Response 200 info))
  with
  | Ok r => r
  | Throw error =>
      Response 500
        (VObj [("error", VStr "Failed to fetch company information");
               ("details", VStr (err_message error));
               ("suggestion", VStr "Please try again or check if the symbol exists")])
  end.

Definition companyInfoHandler (net : request -> upstream) (symbol : string)
  : list request * response :=
  let req := infoRequest symbol in
  ([req], companyInfoOn symbol (net req)).

(** *** GET /api/search-symbol/:companyName *)

Definition symbolRequest (companyName : string) : request :=
  Request "https://www.alphavantage.co/query"
    [("function", VStr "SYMBOL_SEARCH");
     ("keywords", VStr companyName);
     ("apikey", VStr ALPHA_VANTAGE_KEY)].

Definition commonCompanies : list (string * string) :=
  [("apple", "AAPL");
   ("microsoft", "MSFT");
   ("google", "GOOGL");
   ("alphabet", "GOOGL");
   ("tesla", "TSLA");
   ("amazon", "AMZN");
   ("meta", "META");
   ("facebook", "META");
   ("netflix", "NFLX");
   ("nvidia", "NVDA")].

Fixpoint ownProperty (key : string) (table : list (string * string)) : option string :=
  match table with
  | [] => None
  | (k, v) :: rest => if String.eqb key k then Some v else ownProperty key rest
  end.

(** The properties every object literal inherits from [Object.prototype]. *)
Definition objectPrototypeKeys : list string :=
  ["constructor"; "__defineGetter__"; "__defineSetter__"; "hasOwnProperty";
   "__lookupGetter__"; "__lookupSetter__"; "isPrototypeOf";
   "propertyIsEnumerable"; "toString"; "valueOf"; "__proto__"; "toLocaleString"].

(** [commonCompanies[key]]: the table is an object literal, so a key that
    is not its own is looked up on [Object.prototype]. *)
Definition commonCompaniesGet (key : string) : value :=
  match ownProperty key commonCompanies with
  | Some symbol => VStr symbol
  | None => if existsb (String.eqb key) objectPrototypeKeys then VHost key else VUndefined
  end.

Definition rateLimitedBody : value :=
  VObj [("symbol", VNull);
        ("message", VStr "Symbol search temporarily unavailable due to API limits");
        ("fallback", VBool true)].

Definition directMatchBody (symbol : value) (companyName : string) : value :=
  VObj [("symbol", symbol);
        ("name", VStr companyName);
        ("type", VStr "Equity");
        ("region", VStr "United States");
        ("currency", VStr "USD");
        ("source", VStr "direct_match")].

Definition apiSearchBody (topMatch : value) : value :=
  VObj [("symbol", field "1. symbol" topMatch);
        ("name", field "2. name" topMatch);
        ("type", field "3. type" topMatch);
        ("region", field "4. region" topMatch);
        ("currency", field "8. currency" topMatch);
        ("source", VStr "api_search")].

Definition noMatchBody : value :=
  VObj [("symbol", VNull);
        ("message", VStr "No matching stock symbol found. Company may be private or use different name.");
        ("suggestion", VStr "Try searching with the exact company legal name or stock ticker")].

Definition failedBody (error : exn) : value :=
  VObj [("symbol", VNull);
        ("message", VStr "Symbol search failed, but news search will still work");
        ("error", VStr (err_message error));
        ("fallback", VBool true)].

(** The [for (const match of matches)] loop, from the current [topMatch]
    ([null] at the start) over the matches still to visit; [Ok m] on the
    [break] too. *)
Fixpoint selectLoop (searchKey : string) (topMatch : value) (matches : list value)
  : result value :=
  match matches with
  | [] => Ok topMatch
  | m :: rest =>
      let* name := getProp m "2. name" in
      let* matchName := toLowerCaseV (or_else name (VStr "")) in
      let* region0 := getProp m "4. region" in
      let region := or_else region0 (VStr "") in
      let* type0 := getProp m "3. type" in
      let ty := or_else type0 (VStr "") in
      let* qualifies :=
        (if (includes matchName searchKey && is_str "United States" region)%bool
         then includesV ty "Equity" else Ok false) in
      if qualifies then
        if (String.eqb searchKey "apple" && includes matchName "apple inc")%bool
        then Ok m
        else
          let* shorter :=
            (if negb (truthy topMatch) then Ok true else
             let* topName := getProp topMatch "2. name" in
             Ok (lt_length (String.length matchName) (or_else topName (VStr "")))) in
          selectLoop searchKey (if shorter then m else topMatch) rest
      else selectLoop searchKey topMatch rest
  end.

(** From [// Find best match from API results] to the end of the [try]
    block: the loop, the first-match fall-back and the answer. *)
Definition fromMatches (searchKey : string) (matches : value) : result value :=
  let* items := iterate matches in
  let* top := selectLoop searchKey VNull items in
  let topMatch :=
    match items with
    | first :: _ => if truthy top then top else first
    | [] => top
    end in
  if truthy topMatch then
    (* console.log(`... ${result.symbol} ...`), before res.json(result) *)
    let* logged := toStr (field "1. symbol" topMatch) in
    Ok (apiSearchBody topMatch)
  else Ok noMatchBody.

(** The [try] block after the outbound call: the body given to
    [res.json].  The log of a direct match prints what the table gave, a
    string or an object of the host, and cannot throw. *)
Definition resolve (companyName : string) (up : upstream) : result value :=
  let* data := up in
  let* note := getProp data "Note" in
  if truthy note then Ok rateLimitedBody else
  let* bestMatches := getProp data "bestMatches" in
  let matches := or_else bestMatches (VArr []) in
  let searchKey := trim (toLowerCase companyName) in
  let symbol := commonCompaniesGet searchKey in
  if truthy symbol then Ok (directMatchBody symbol companyName) else
  fromMatches searchKey matches.

Definition searchSymbolOn (companyName : string) (up : upstream) : response :=
  match resolve companyName up with
  | Ok json => Response 200 json
  | Throw error => Response 200 (failedBody error)
  end.

Definition searchSymbol (net : request -> upstream) (companyName : string)
  : list request * response :=
  let req := symbolRequest companyName in
  ([req], searchSymbolOn companyName (net req)).

(** *** Configuration and GET / *)

(** [PORT], [NEWS_API_KEY] and [ALPHA_VANTAGE_KEY] as the file computes
    them from the environment; the constants of the same names above are
    their values when the variables are not set. *)
Definition port (env : environment) : value := envOr env "PORT" (VNum 3001).

Definition newsApiKey (env : environment) : value :=
  envOr env "NEWS_API_KEY" (VStr NEWS_API_KEY).

Definition alphaVantageKey (env : environment) : value :=
  envOr env "ALPHA_VANTAGE_KEY" (VStr ALPHA_VANTAGE_KEY).

(** The health check; [now] is [new Date().toISOString()]. *)
Definition health (env : environment) (now : string) : response :=
  Response 200
    (VObj [("message", VStr "Company News API Server is running!");
           ("timestamp", VStr now);
           ("apis", VObj [("newsAPI", VBool (truthy (newsApiKey env)));
                          ("alphaVantage", VBool (truthy (alphaVantageKey env)))])]).

End Server.

(* ================================================================== *)
(** ** src/nodejs-backend.js                                            *)
(* ================================================================== *)

Module NodejsBackend.


(** *** GET /api/company-news/:companyName *)

(** The callback of [articles.filter(..)]. *)
Definition keepArticle (article : value) : result bool :=
  let* title := getProp article "title" in
  if negb (truthy title) then Ok false else
  let* source := getProp article "source" in
  let* name := optChain source "name" in
  if negb (truthy name) then Ok false else
  if is_str "[Removed]" title then Ok false else
  let* lowered := toLowerCaseV title in
  Ok (negb (includes lowered "removed")).

(** The callback of [.map(..)]; [now] is [new Date().toISOString()]. *)
Definition formatArticle (now : string) (article : value) : result value :=
  let* title := getProp article "title" in
  let* source := getProp article "source" in
  let* name := getProp source "name" in
  let* publishedAt := getProp article "publishedAt" in
  let* date := (if truthy publishedAt then splitT0 publishedAt else Ok (VStr (beforeT now))) in
  let* description := getProp article "description" in
  let* url := getProp article "url" in
  let* urlToImage := getProp article "urlToImage" in
  Ok (VObj [("title", title);
            ("source", name);
            ("date", date);
            ("summary", or_else description (VStr "No summary available"));
            ("url", url);
            ("imageUrl", urlToImage)]).

(** [articles.filter(..).slice(0, 8)] *)
Definition retained (articles : list value) : result (list value) :=
  let* kept := filterM keepArticle articles in
  Ok (take 8 kept).

(** [formattedNews]: [articles.filter(..).slice(0, 8).map(..)] *)
Definition formattedNews (now : string) (articles : list value) : result (list value) :=
  let* kept := retained articles in
  mapM (formatArticle now) kept.

Definition newsRequest (companyName : string) : request :=
  Request "https://newsapi.org/v2/everything"
    [("q", VStr (dquote ++ companyName ++ dquote ++ " OR " ++
                 dquote ++ companyName ++ " company" ++ dquote ++ " OR " ++
                 dquote ++ companyName ++ " stock" ++ dquote));
     ("sortBy", VStr "publishedAt");
     ("pageSize", VNum 12);
     ("language", VStr "en");
     ("apiKey", VStr NEWS_API_KEY)].

(** The handler after the outbound call.  [now] stands for every
    [new Date().toISOString()] of the request. *)
Definition companyNewsOn (now companyName : string) (up : upstream) : response :=
  match
    (let* data := up in
     let* articles0 := getProp data "articles" in
     let* articles := asArray (or_else articles0 (VArr [])) in
     let* news := formattedNews now articles in
     let* totalResults := getProp data "totalResults" in
     Ok (VObj [("companyName", VStr companyName);
               ("totalResults", or_else totalResults (VNum 0));
               ("news", VArr news)]))
  with
  | Ok json => Response 200 json
  | Throw error =>
      match err_status error with
      | Some 426 =>
          Response 426
            (VObj [("error", VStr "NewsAPI requires upgrade for this request");
                   ("details", VStr "Free tier has limitations on search parameters")])
      | _ =>
          Response 500
            (VObj [("error", VStr "Failed to fetch company news");
                   ("details", or_else (err_data_message error) (VStr (err_message error)));
                   ("suggestion", VStr "Try a more specific company name or try again later")])
      end
  end.

(** The handler: the requests it issues, in order, and its response. *)
Definition companyNews (net : request -> upstream) (now companyName : string)
  : list request * response :=
  let req := newsRequest companyName in
  ([req], companyNewsOn now companyName (net req)).

(** *** GET /api/company-info/:symbol *)

Definition infoRequest (symbol : string) : request :=
  Request "https://www.alphavantage.co/query"
    [("function", VStr "OVERVIEW");
     ("symbol", VStr (toUpperCase symbol));
     ("apikey", VStr ALPHA_VANTAGE_KEY)].

(** The [annualReport] property; [data] is neither [null] nor [undefined]
    where it is built.  The template literal of the title and
    [encodeURIComponent] each convert [data.Name || symbol] to a string,
    which can throw. *)
Definition annualReport (symbol : string) (data : value) : result value :=
  if truthy (field "Symbol" data) then
    let* titleName := toStr (or_else (field "Name" data) (VStr symbol)) in
    let* urlName := toStr (or_else (field "Name" data) (VStr symbol)) in
    Ok (VObj [("year", VStr "2023");
              ("title", VStr (titleName ++ " Annual Report 2023"));
              ("url", VStr ("https://www.sec.gov/edgar/search/#/entityName=" ++
                            encodeURIComponent urlName));
              ("type", VStr "SEC EDGAR Database")])
  else Ok VNull.

(** [companyInfo] *)
Definition companyInfo (symbol : string) (data : value) : result value :=
  let* report := annualReport symbol data in
  Ok (VObj [("name", or_else (field "Name" data) (VStr "Unknown Company"));
            ("symbol", or_else (field "Symbol" data) (VStr (toUpperCase symbol)));
            ("sector", or_else (field "Sector" data) (VStr "Not Available"));
            ("industry", or_else (field "Industry" data) (VStr "Not Available"));
            ("marketCap", or_else (field "MarketCapitalization" data) (VStr "Not Available"));
            ("description", or_else (field "Description" data) (VStr "No description available"));
            ("exchange", or_else (field "Exchange" data) (VStr "Not Available"));
            ("country", or_else (field "Country" data) (VStr "Not Available"));
            ("annualReport", report)]).

Definition rateLimitedInfo : response :=
  Response 429
    (VObj [("error", VStr "API rate limit reached");
           ("suggestion", VStr "Alpha Vantage allows 5 requests per minute. Please try again in a moment.")]).

Definition badRequestInfo (information : value) : response :=
  Response 400
    (VObj [("error", VStr "API request issue");
           ("details", information)]).

Definition notFoundInfo : response :=
  Response 404
    (VObj [("error", VStr "Company not found");
           ("suggestion", VStr "Please check the stock symbol and try again")]).

Definition companyInfoOn (symbol : string) (up : upstream) : response :=
  match
    (let* data := up in
     let* note := getProp data "Note" in
     if truthy note then Ok rateLimitedInfo else
     let* information := getProp data "Information" in
     if truthy information then Ok (badRequestInfo information) else
     let* name := getProp data "Name" in
     let* sym := getProp data "Symbol" in
     if (negb (truthy name) && negb (truthy sym))%bool then Ok notFoundInfo else
     let* info := companyInfo symbol data in
     (* console.log(`... ${data.Name || symbol}`) *)
     let* logged := toStr (or_else (field "Name" data) (VStr symbol)) in
     Ok (Response 200 info))
  with
  | Ok r => r
  | Throw error =>
      Response 500
        (VObj [("error", VStr "Failed to fetch company information");
               ("details", VStr (err_message error));
               ("suggestion", VStr "Please try again or check if the symbol exists")])
  end.

Definition companyInfoHandler (net : request -> upstream) (symbol : string)
  : list request * response :=
  let req := infoRequest symbol in
  ([req], companyInfoOn symbol (net req)).

(** *** GET /api/search-symbol/:companyName *)

Definition symbolRequest (companyName : string) : request :=
  Request "https://www.alphavantage.co/query"
    [("function", VStr "SYMBOL_SEARCH");
     ("keywords", VStr companyName);
     ("apikey", VStr ALPHA_VANTAGE_KEY)].

Definition rateLimitedBody : value :=
  VObj [("symbol", VNull);
        ("message", VStr "Symbol search temporarily unavailable due to API limits");
        ("fallback", VBool true)].

(** This file's answer has no [source] property. *)
Definition apiSearchBody (topMatch : value) : value :=
  VObj [("symbol", field "1. symbol" topMatch);
        ("name", field "2. name" topMatch);
        ("type", field "3. type" topMatch);
        ("region", field "4. region" topMatch);
        ("currency", field "8. currency" topMatch)].

Definition noMatchBody : value :=
  VObj [("symbol", VNull);
        ("message", VStr "No matching stock symbol found. Company may be private or use different name.");
        ("suggestion", VStr "Try searching with the exact company legal name or stock ticker")].

Definition failedBody (error : exn) : value :=
  VObj [("symbol", VNull);
        ("message", VStr "Symbol search failed, but news search will still work");
        ("error", VStr (err_message error));
        ("fallback", VBool true)].

(** The [for (const match of matches)] loop of this file: the first match
    of region United States whose type includes Equity, [null] when there
    is none. *)
Fixpoint selectLoop (matches : list value) : result value :=
  match matches with
  | [] => Ok VNull
  | m :: rest =>
      let* name := getProp m "2. name" in
      let* region0 := getProp m "4. region" in
      let region := or_else region0 (VStr "") in
      let* type0 := getProp m "3. type" in
      let ty := or_else type0 (VStr "") in
      let* qualifies :=
        (if is_str "United States" region then includesV ty "Equity" else Ok false) in
      if qualifies then Ok m else selectLoop rest
  end.

Definition fromMatches (matches : value) : result value :=
  let* items := iterate matches in
  let* top := selectLoop items in
  let topMatch :=
    match items with
    | first :: _ => if truthy top then top else first
    | [] => top
    end in
  if truthy topMatch then
    (* console.log(`... ${result.symbol} ...`), before res.json(result) *)
    let* logged := toStr (field "1. symbol" topMatch) in
    Ok (apiSearchBody topMatch)
  else Ok noMatchBody.

Definition resolve (companyName : string) (up : upstream) : result value :=
  let* data := up in
  let* note := getProp data "Note" in
  if truthy note then Ok rateLimitedBody else
  let* bestMatches := getProp data "bestMatches" in
  let matches := or_else bestMatches (VArr []) in
  fromMatches matches.

Definition searchSymbolOn (companyName : string) (up : upstream) : response :=
  match resolve companyName up with
  | Ok json => Response 200 json
  | Throw error => Response 200 (failedBody error)
  end.

Definition searchSymbol (net : request -> upstream) (companyName : string)
  : list request * response :=
  let req := symbolRequest companyName in
  ([req], searchSymbolOn companyName (net req)).

(** *** GET / *)

Definition health : response :=
  Response 200 (VObj [("message", VStr "Company News API Server is running!")]).

End NodejsBackend.

(* ================================================================== *)
(** ** Predicates of the specification                                  *)
(* ================================================================== *)

(** A string, or an absent value ([null], [undefined]). *)
Definition is_text (v : value) : bool :=
  match v with
  | VStr _ | VNull | VUndefined => true
  | _ => false
  end.

(** The text of a string-or-absent field: [v || ''] *)
Definition text (v : value) : string :=
  match v with
  | VStr s => s
  | _ => ""
  end.

(** A raw article as the news provider documents it: an object whose
    title, source name and publication time are strings when present. *)
Definition wellFormedArticle (a : value) : bool :=
  (negb (nullish a) && is_text (field "title" a) &&
   is_text (field "name" (field "source" a)) &&
   is_text (field "publishedAt" a))%bool.

(** The invariant of a public article: a non-empty title that is not the
    sentinel and does not contain "removed" in any letter case, and a
    non-empty (truthy) source. *)
Definition publicArticleOk (p : value) : bool :=
  (match field "title" p with
   | VStr t =>
       negb (String.eqb t "") && negb (String.eqb t "[Removed]") &&
       negb (includes (toLowerCase t) "removed")
   | _ => false
   end && truthy (field "source" p))%bool.

(** Title and source are both non-empty strings. *)
Definition publicArticleText (p : value) : bool :=
  (negb (String.eqb (text (field "title" p)) "") &&
   negb (String.eqb (text (field "source" p)) ""))%bool.

(** The number of constructors of a value. *)
Fixpoint vsize (v : value) : nat :=
  match v with
  | VArr items =>
      S ((fix sum (l : list value) : nat :=
            match l with
            | [] => O
            | x :: rest => (vsize x + sum rest)%nat
            end) items)
  | VObj props =>
      S ((fix sum (l : list (string * value)) : nat :=
            match l with
            | [] => O
            | (_, x) :: rest => (vsize x + sum rest)%nat
            end) props)
  | _ => 1%nat
  end.

(** A raw symbol match as the quote provider documents it: name, region
    and type are strings when present. *)
Definition wellFormedMatch (m : value) : bool :=
  (negb (nullish m) && is_text (field "2. name" m) &&
   is_text (field "4. region" m) && is_text (field "3. type" m))%bool.

(** A qualifying candidate: its lowercased name contains the search key,
    its region is United States and its type contains Equity. *)
Definition qualifying (searchKey : string) (m : value) : bool :=
  (includes (toLowerCase (text (field "2. name" m))) searchKey &&
   String.eqb (text (field "4. region" m)) "United States" &&
   includes (text (field "3. type" m)) "Equity")%bool.

(** The length of the name of a match, [(match['2. name'] || '').length]
    for an ASCII name. *)
Definition nameLength (m : value) : nat :=
  String.length (text (field "2. name" m)).

(** Only white space. *)
Fixpoint all_space (s : string) : bool :=
  match s with
  | EmptyString => true
  | String c s' => (is_space c && all_space s')%bool
  end.

Definition is_upper (c : ascii) : bool :=
  let n := nat_of_ascii c in (Nat.leb 65 n && Nat.leb n 90)%bool.

(** Some character is an upper-case letter. *)
Fixpoint has_upper (s : string) : bool :=
  match s with
  | EmptyString => false
  | String c s' => (is_upper c || has_upper s')%bool
  end.

(** A character that [encodeURIComponent] can put out: an unreserved
    one, the percent sign, or an upper-case hexadecimal digit. *)
Definition uri_safe (c : ascii) : bool :=
  (uri_unreserved c || Ascii.eqb c "%")%bool.

Fixpoint all_chars (p : ascii -> bool) (s : string) : bool :=
  match s with
  | EmptyString => true
  | String c s' => (p c && all_chars p s')%bool
  end.

(** ASCII text: every character code is below 128.  On such text the
    string functions of this file are those of JavaScript. *)
Definition ascii_only (s : string) : bool :=
  all_chars (fun c => Nat.ltb (nat_of_ascii c) 128) s.

(** The name of a match is ASCII text. *)
Definition asciiName (m : value) : bool :=
  ascii_only (text (field "2. name" m)).

(** [String(v)] returns. *)
Definition stringifiable (v : value) : bool :=
  match toStr v with
  | Ok _ => true
  | Throw _ => false
  end.

(** The classification of the fundamentals payload lets it through to
    the formatting. *)
Definition formattingReached (data : value) : bool :=
  (negb (truthy (field "Note" data)) &&
   negb (truthy (field "Information" data)) &&
   (truthy (field "Name" data) || truthy (field "Symbol" data)))%bool.

(** A match of region United States whose type contains Equity: the test
    of the loop of nodejs-backend.js. *)
Definition usEquity (m : value) : bool :=
  (String.eqb (text (field "4. region" m)) "United States" &&
   includes (text (field "3. type" m)) "Equity")%bool.

(** A qualifying candidate for "apple" whose name contains "apple inc". *)
Definition appleIncCandidate (m : value) : bool :=
  (qualifying "apple" m &&
   includes (toLowerCase (text (field "2. name" m))) "apple inc")%bool.

Definition is_TypeError (e : exn) : bool :=
  match e with
  | TypeError _ => true
  | AxiosError _ _ => false
  end.

(** An environment whose news key is set to the empty string. *)
Definition sampleEnvironment : environment :=
  fun name => if String.eqb name "NEWS_API_KEY" then Some "" else None.

(* ================================================================== *)
(** ** Sample inputs                                                    *)
(* ================================================================== *)

Definition sampleNow : string := "2024-05-02T08:30:00.000Z".

Definition sampleArticle (title source : string) : value :=
  VObj [("source", VObj [("id", VNull); ("name", VStr source)]);
        ("title", VStr title);
        ("description", VNull);
        ("url", VStr "https://example.com/story");
        ("urlToImage", VNull);
        ("publishedAt", VStr "2024-05-01T10:00:00Z")].

Definition sampleArticles : list value :=
  [sampleArticle "Apple unveils new chip" "Reuters";
   sampleArticle "[Removed]" "[Removed]";
   sampleArticle "Apple earnings beat" "CNBC"].

(** The two raw matches of the Apple scenario. *)
Definition appleHospitality : value :=
  VObj [("2. name", VStr "Apple Hospitality REIT");
        ("4. region", VStr "United States");
        ("3. type", VStr "Equity")].

Definition appleInc : value :=
  VObj [("2. name", VStr "Apple Inc");
        ("4. region", VStr "United States");
        ("3. type", VStr "Equity Common Stock")].

Definition appleSearch : value :=
  VObj [("bestMatches", VArr [appleHospitality; appleInc])].

Definition rateLimitNote : value :=
  VObj [("Note", VStr "Thank you for using Alpha Vantage! Our standard API call frequency is 5 calls per minute.")].

Definition transportFailure : exn :=
  AxiosError "timeout of 10000ms exceeded" None.

Definition symbolMatch (symbol name : string) : value :=
  VObj [("1. symbol", VStr symbol);
        ("2. name", VStr name);
        ("3. type", VStr "Equity");
        ("4. region", VStr "United States");
        ("8. currency", VStr "USD")].

Definition ibmMatches : list value :=
  [symbolMatch "IBMX" "IBM Holdings Trust";
   symbolMatch "IBM" "IBM Corp";
   symbolMatch "IBMB" "IBM Bank";
   symbolMatch "IBMC" "IBM Common Inc"].

(* ================================================================== *)
(** ** Evaluation on concrete inputs                                    *)
(* ================================================================== *)

Example trim_lower_apple : trim (toLowerCase "  ApPLe ") = "apple".
Proof. reflexivity. Qed.

Example includes_removed : includes (toLowerCase "Story REMOVED by editor") "removed" = true.
Proof. reflexivity. Qed.

Example beforeT_date : beforeT "2024-05-01T10:00:00Z" = "2024-05-01".
Proof. reflexivity. Qed.

Example encode_name : encodeURIComponent "Apple Inc" = "Apple%20Inc".
Proof. reflexivity. Qed.

Example toStr_safe_integer : toStr (VNum 9007199254740991) = Ok "9007199254740991".
Proof. vm_compute. reflexivity. Qed.

Example toStr_rounded_integer : toStr (VNum (2 ^ 60)) = Ok "1152921504606847000".
Proof. vm_compute. reflexivity. Qed.

Example toStr_exponent : toStr (VNum (10 ^ 21)) = Ok "1e+21".
Proof. vm_compute. reflexivity. Qed.

Example toStr_nearest_double : toStr (VNum (2 ^ 53 + 1)) = Ok "9007199254740992".
Proof. vm_compute. reflexivity. Qed.

Example toStr_negative : toStr (VNum (- (10 ^ 22 + 1))) = Ok "-1e+22".
Proof. vm_compute. reflexivity. Qed.

Example toStr_infinity : toStr (VNum (10 ^ 309)) = Ok "Infinity".
Proof. vm_compute. reflexivity. Qed.

Example toStr_exponent_digits : toStr (VNum (2 ^ 70)) = Ok "1.1805916207174113e+21".
Proof. vm_compute. reflexivity. Qed.

Example toStr_array :
  toStr (VArr [VNum 1; VNull; VStr "a"; VArr [VBool true; VNum 2]; VObj []]) =
    Ok "1,,a,true,2,[object Object]".
Proof. vm_compute. reflexivity. Qed.

Example toStr_own_toString :
  toStr (VObj [("toString", VNum 1)]) =
    Throw (TypeError "Cannot convert object to primitive value").
Proof. reflexivity. Qed.

Example companyInfoOn_unprintable_name :
  status (Server.companyInfoOn "x"
            (Ok (VObj [("Symbol", VStr "X"); ("Name", VObj [("toString", VNum 1)])]))) = 500.
Proof. reflexivity. Qed.

(* ================================================================== *)
(** ** The exception monad and the array methods                        *)
(* ================================================================== *)

Lemma bind_Ok_inv {A B : Type} (m : result A) (k : A -> result B) (b : B) :
  bind m k = Ok b -> exists a, m = Ok a /\ k a = Ok b.
Proof. destruct m as [a|e]; simpl; intros H; [eauto | discriminate]. Qed.

(** Splits a hypothesis [let* x := m in k = Ok b] into its two steps. *)
Ltac bind_inv H :=
  let x := fresh "x" in
  let Hm := fresh "Hm" in
  apply bind_Ok_inv in H; destruct H as (x & Hm & H).

Lemma filterM_Ok_inv {A : Type} (p : A -> result bool) (l kept : list A) :
  filterM p l = Ok kept ->
  sublist kept l /\ Forall (fun x => p x = Ok true) kept.
Proof.
  revert kept. induction l as [|x l IH]; simpl; intros kept H.
  - injection H as <-. split; constructor.
  - bind_inv H. bind_inv H. injection H as <-.
    destruct (IH _ Hm0) as [Hs Hf].
    destruct x0.
    + split; [by apply sublist_skip | by constructor].
    + split; [by apply sublist_cons | done].
Qed.

Lemma filterM_fixed {A : Type} (p : A -> result bool) (l : list A) :
  Forall (fun x => p x = Ok true) l -> filterM p l = Ok l.
Proof.
  induction 1 as [|x l Hx _ IH]; simpl; [done|].
  by rewrite Hx, IH.
Qed.

Lemma filterM_total {A : Type} (p : A -> result bool) (l : list A) :
  Forall (fun x => exists b, p x = Ok b) l -> exists kept, filterM p l = Ok kept.
Proof.
  induction 1 as [|x l [b Hx] _ [kept IH]]; simpl; [eauto|].
  rewrite Hx, IH. simpl. eauto.
Qed.

Lemma mapM_Ok_inv {A B : Type} (f : A -> result B) (l : list A) (out : list B) :
  mapM f l = Ok out -> Forall2 (fun a b => f a = Ok b) l out.
Proof.
  revert out. induction l as [|x l IH]; simpl; intros out H.
  - injection H as <-. constructor.
  - bind_inv H. bind_inv H. injection H as <-. constructor; auto.
Qed.

Lemma mapM_total {A B : Type} (f : A -> result B) (l : list A) :
  Forall (fun x => exists y, f x = Ok y) l -> exists out, mapM f l = Ok out.
Proof.
  induction 1 as [|x l [y Hx] _ [out IH]]; simpl; [eauto|].
  rewrite Hx, IH. simpl. eauto.
Qed.

Lemma Forall_take_of {A : Type} (P : A -> Prop) (n : nat) (l : list A) :
  Forall P l -> Forall P (take n l).
Proof. intros H. revert n. induction H; intros [|n]; simpl; constructor; auto. Qed.

Lemma Forall_sublist_of {A : Type} (P : A -> Prop) (k l : list A) :
  sublist k l -> Forall P l -> Forall P k.
Proof.
  induction 1; intros Hl; [done| |]; inversion Hl; subst; [constructor|]; auto.
Qed.

(* ================================================================== *)
(** ** Strings and values                                               *)
(* ================================================================== *)

Lemma eqb_string_false (s t : string) : s <> t -> String.eqb s t = false.
Proof. intros H. by apply String.eqb_neq. Qed.

Lemma length_map_string (f : ascii -> ascii) (s : string) :
  String.length (map_string f s) = String.length s.
Proof. induction s; simpl; congruence. Qed.

Lemma nullish_truthy (v : value) : truthy v = true -> nullish v = false.
Proof. by destruct v. Qed.

Lemma getProp_Ok (v : value) (k : string) :
  nullish v = false -> getProp v k = Ok (field k v).
Proof. unfold getProp. by intros ->. Qed.

Lemma getProp_Ok_inv (v : value) (k : string) (x : value) :
  getProp v k = Ok x -> nullish v = false /\ x = field k v.
Proof. unfold getProp. destruct (nullish v); [discriminate|]. by intros [= <-]. Qed.

Lemma optChain_Ok_inv (v : value) (k : string) (x : value) :
  optChain v k = Ok x -> x = field k v.
Proof.
  unfold optChain, getProp. destruct (nullish v) eqn:E; intros [= <-]; [|done].
  by destruct v.
Qed.

(** No value is one of its own properties. *)
Lemma field_not_self (k : string) (v : value) : field k v = v -> v = VUndefined.
Proof.
  destruct v as [| | | | | |props|]; simpl; try done.
  intros H. exfalso.
  assert (lookup_prop k props = VUndefined \/
          (vsize (lookup_prop k props) < vsize (VObj props))%nat) as [Hu|Hlt].
  { clear H. induction props as [|[k' v] props IH]; [by left|].
    change (vsize (VObj ((k', v) :: props))) with (S (vsize v + pred (vsize (VObj props)))).
    simpl lookup_prop. destruct (String.eqb k k'); [right; lia|].
    destruct IH as [IH|IH]; [by left|right].
    change (vsize (VObj props)) with (S (pred (vsize (VObj props)))) in IH. lia. }
  - congruence.
  - rewrite H in Hlt. lia.
Qed.

Lemma sublist_same_length {A : Type} (k l : list A) :
  sublist k l -> (length l <= length k)%nat -> k = l.
Proof.
  induction 1 as [|x k l _ IH|x k l Hs _]; simpl; intros Hlen.
  - done.
  - f_equal. apply IH. lia.
  - apply sublist_length in Hs. lia.
Qed.

(* ================================================================== *)
(** ** News formatting                                                  *)
(* ================================================================== *)

Section News.

Import Server.

(** What the filter callback has checked when it answers [true]. *)
Lemma keepArticle_true_inv (a : value) :
  keepArticle a = Ok true ->
  nullish a = false /\
  nullish (field "source" a) = false /\
  truthy (field "name" (field "source" a)) = true /\
  exists t, field "title" a = VStr t /\ t <> "" /\ t <> "[Removed]" /\
            includes (toLowerCase t) "removed" = false.
Proof.
  unfold keepArticle, optChain, getProp.
  destruct (nullish a) eqn:Ha; simpl; [discriminate|].
  destruct (truthy (field "title" a)) eqn:Ht; simpl; [|discriminate].
  destruct (nullish (field "source" a)) eqn:Hs; simpl; [discriminate|].
  destruct (truthy (field "name" (field "source" a))) eqn:Hn; simpl; [|discriminate].
  destruct (field "title" a) as [| | | |t| | |] eqn:Et; simpl; try discriminate.
  destruct (String.eqb t "[Removed]") eqn:Hr; simpl; [discriminate|].
  destruct (includes (toLowerCase t) "removed") eqn:Hi; simpl; [discriminate|].
  intros _. repeat split; try done. exists t. repeat split; try done.
  - intros ->. discriminate.
  - intros ->. discriminate.
Qed.

Lemma keepArticle_total (a : value) :
  wellFormedArticle a = true -> exists b, keepArticle a = Ok b.
Proof.
  unfold wellFormedArticle, keepArticle, optChain, getProp.
  intros H. repeat (apply andb_prop in H; destruct H as [H ?]).
  apply negb_true_iff in H. rewrite H. simpl.
  destruct (truthy (field "title" a)) eqn:Ht; simpl; [|eauto].
  destruct (nullish (field "source" a)) eqn:Hs; simpl; [eauto|].
  destruct (truthy (field "name" (field "source" a))) eqn:Hn; simpl; [|eauto].
  destruct (field "title" a); try discriminate; simpl.
  destruct (String.eqb s "[Removed]"); simpl; eauto.
Qed.

(** Title and source of a formatted article are those of the raw one. *)
Lemma formatArticle_Ok_inv (now : string) (a p : value) :
  formatArticle now a = Ok p ->
  field "title" p = field "title" a /\
  field "source" p = field "name" (field "source" a).
Proof.
  unfold formatArticle. intros H.
  do 8 bind_inv H. injection H as <-.
  apply getProp_Ok_inv in Hm as [_ ->].
  apply getProp_Ok_inv in Hm0 as [_ ->].
  apply getProp_Ok_inv in Hm1 as [_ ->].
  by split.
Qed.

Lemma formatArticle_total (now : string) (a : value) :
  wellFormedArticle a = true -> keepArticle a = Ok true ->
  exists p, formatArticle now a = Ok p.
Proof.
  intros H Hk. apply keepArticle_true_inv in Hk as (Ha & Hs & _ & _).
  unfold wellFormedArticle in H. repeat (apply andb_prop in H; destruct H as [H ?]).
  unfold formatArticle. repeat (rewrite getProp_Ok by done; cbn [bind]).
  destruct (field "publishedAt" a); try discriminate;
    cbn [truthy splitT0 bind]; repeat (rewrite getProp_Ok by done; cbn [bind]); eauto.
  destruct (negb (String.eqb s "")); simpl; eauto.
Qed.

Lemma retained_Ok_inv (articles kept : list value) :
  retained articles = Ok kept ->
  sublist kept articles /\ (length kept <= 8)%nat /\
  Forall (fun a => keepArticle a = Ok true) kept.
Proof.
  unfold retained. intros H. bind_inv H. injection H as <-.
  apply filterM_Ok_inv in Hm as [Hs Hf]. repeat split.
  - etransitivity; [apply sublist_take | done].
  - rewrite length_take. lia.
  - by apply Forall_take_of.
Qed.

Lemma publicArticleOk_format (now : string) (a p : value) :
  keepArticle a = Ok true -> formatArticle now a = Ok p -> publicArticleOk p = true.
Proof.
  intros Hk Hf. apply keepArticle_true_inv in Hk as (_ & _ & Hn & t & Ht & Hne & Hr & Hi).
  apply formatArticle_Ok_inv in Hf as [Htitle Hsource].
  unfold publicArticleOk. rewrite Htitle, Hsource, Ht, Hn, Hi.
  by rewrite !eqb_string_false.
Qed.

Lemma publicArticleText_format (now : string) (a p : value) :
  wellFormedArticle a = true ->
  keepArticle a = Ok true -> formatArticle now a = Ok p -> publicArticleText p = true.
Proof.
  intros Hw Hk Hf. apply keepArticle_true_inv in Hk as (_ & _ & Hn & t & Ht & Hne & Hr & Hi).
  apply formatArticle_Ok_inv in Hf as [Htitle Hsource].
  unfold wellFormedArticle in Hw. repeat (apply andb_prop in Hw; destruct Hw as [Hw ?]).
  unfold publicArticleText. rewrite Htitle, Hsource, Ht. simpl.
  rewrite eqb_string_false by done. simpl.
  destruct (field "name" (field "source" a)); try discriminate. exact Hn.
Qed.

Lemma formattedNews_total (now : string) (articles : list value) :
  Forall (fun a => wellFormedArticle a = true) articles ->
  exists kept out,
    retained articles = Ok kept /\ formattedNews now articles = Ok out /\
    Forall2 (fun a p => formatArticle now a = Ok p) kept out /\
    Forall (fun a => wellFormedArticle a = true) kept.
Proof.
  intros Hw.
  destruct (filterM_total keepArticle articles) as [kept0 Hk0].
  { eapply Forall_impl; [exact Hw|]. intros a. apply keepArticle_total. }
  assert (retained articles = Ok (take 8 kept0)) as Hret.
  { unfold retained. by rewrite Hk0. }
  destruct (retained_Ok_inv _ _ Hret) as (Hs & _ & Hf).
  assert (Forall (fun a => wellFormedArticle a = true) (take 8 kept0)) as Hwk.
  { eapply Forall_sublist_of; [exact Hs | exact Hw]. }
  destruct (mapM_total (formatArticle now) (take 8 kept0)) as [out Hout].
  { rewrite Forall_forall in Hwk, Hf. apply Forall_forall. intros a Ha.
    apply formatArticle_total; auto. }
  exists (take 8 kept0), out. repeat split; try done.
  - unfold formattedNews. by rewrite Hret.
  - by apply mapM_Ok_inv.
Qed.

(** C4.  For every raw article list the formatted news, whenever the
    pipeline produces them, are at most 8, and each has a non-empty title
    that is not "[Removed]" and whose lowercased form does not contain
    "removed", and a non-empty source.  On a list of well-formed raw
    articles the pipeline does produce an output, and its titles and
    sources are non-empty strings. *)
Theorem formattedNews_capped_and_clean (now : string) (articles : list value) :
  (forall out, formattedNews now articles = Ok out ->
     (length out <= 8)%nat /\ Forall (fun p => publicArticleOk p = true) out) /\
  (Forall (fun a => wellFormedArticle a = true) articles ->
     exists out, formattedNews now articles = Ok out /\
                 (length out <= 8)%nat /\
                 Forall (fun p => publicArticleOk p = true) out /\
                 Forall (fun p => publicArticleText p = true) out).
Proof.
  assert (forall out, formattedNews now articles = Ok out ->
     (length out <= 8)%nat /\ Forall (fun p => publicArticleOk p = true) out) as Hgen.
  { intros out H. unfold formattedNews in H. bind_inv H.
    apply retained_Ok_inv in Hm as (_ & Hlen & Hkeep).
    apply mapM_Ok_inv in H. split.
    - apply Forall2_length in H. lia.
    - clear Hlen. induction H; [constructor|].
      inversion Hkeep; subst. constructor; [|auto].
      eapply publicArticleOk_format; eauto. }
  split; [exact Hgen|].
  intros Hw. destruct (formattedNews_total now _ Hw) as (kept & out & Hret & Hout & Hfmt & Hwk).
  exists out. destruct (Hgen _ Hout) as [Hlen Hok]. repeat split; try done.
  apply retained_Ok_inv in Hret as (_ & _ & Hkeep).
  clear Hlen Hok Hout. induction Hfmt; [constructor|].
  inversion Hkeep; subst. inversion Hwk; subst. constructor; [|auto].
  eapply publicArticleText_format; eauto.
Qed.

Lemma filterM_none {A : Type} (p : A -> result bool) (l : list A) :
  Forall (fun x => p x = Ok false) l -> filterM p l = Ok [].
Proof.
  induction 1 as [|x l Hx _ IH]; simpl; [done|].
  by rewrite Hx, IH.
Qed.

(** A formatted article has a plain string as its source, so the filter
    callback drops it. *)
Lemma keepArticle_formatted (now : string) (a p : value) :
  is_text (field "name" (field "source" a)) = true ->
  formatArticle now a = Ok p -> keepArticle p = Ok false.
Proof.
  intros Hn Hf. pose proof (formatArticle_Ok_inv _ _ _ Hf) as [Ht Hs].
  assert (nullish p = false) as Hp.
  { unfold formatArticle in Hf. do 8 bind_inv Hf. by injection Hf as <-. }
  unfold keepArticle, optChain, getProp. rewrite Hp. cbn [bind].
  destruct (negb (truthy (field "title" p))); [done|].
  rewrite Hs. by destruct (field "name" (field "source" a)).
Qed.

(** The pipeline has no fixed point but the empty list. *)
Lemma formattedNews_fixed_point (now : string) (l : list value) :
  formattedNews now l = Ok l -> l = [].
Proof.
  intros H. unfold formattedNews in H. bind_inv H.
  pose proof (retained_Ok_inv _ _ Hm) as (Hs & _ & Hkeep).
  apply mapM_Ok_inv in H. pose proof (Forall2_length _ _ _ H) as Hlen.
  assert (x = l) as -> by (apply sublist_same_length; [done | lia]).
  destruct l as [|a rest]; [done|]. exfalso.
  inversion H as [|? ? ? ? Hf _]; subst.
  inversion Hkeep as [|? ? Hk _]; subst.
  apply keepArticle_true_inv in Hk as (_ & Hsrc & _).
  apply formatArticle_Ok_inv in Hf as [_ Hself].
  symmetry in Hself. apply field_not_self in Hself. by rewrite Hself in Hsrc.
Qed.

(** C5 (as amended).  Selecting is idempotent: the filter and the cap of
    8, applied again to the raw articles they retained, retain all of
    them.  The whole pipeline is not: its output has another shape than
    its input (the source is the name itself, not an object with a name),
    so the output of the pipeline is left unchanged by a second pass only
    when it is empty; on well-formed raw articles the second pass yields
    the empty list. *)
Theorem retained_idempotent (now : string) (articles : list value) :
  (forall kept, retained articles = Ok kept -> retained kept = Ok kept) /\
  (forall out now', formattedNews now articles = Ok out ->
     (formattedNews now' out = Ok out <-> out = [])) /\
  (Forall (fun a => wellFormedArticle a = true) articles ->
     exists kept out, retained articles = Ok kept /\
       formattedNews now articles = Ok out /\
       forall now', formattedNews now' out = Ok []).
Proof.
  split; [|split].
  - intros kept H. apply retained_Ok_inv in H as (_ & Hlen & Hkeep).
    unfold retained. rewrite (filterM_fixed _ _ Hkeep). cbn [bind].
    by rewrite take_ge.
  - intros out now' _. split.
    + apply formattedNews_fixed_point.
    + by intros ->.
  - intros Hw. destruct (formattedNews_total now _ Hw) as (kept & out & Hret & Hout & Hfmt & Hwk).
    exists kept, out. repeat split; try done. intros now'.
    assert (Forall (fun p => keepArticle p = Ok false) out) as Hdrop.
    { clear Hret Hout. induction Hfmt; [constructor|].
      inversion Hwk; subst. constructor; [|auto].
      eapply keepArticle_formatted; [|eauto].
      match goal with H : wellFormedArticle _ = true |- _ =>
        unfold wellFormedArticle in H;
        repeat (apply andb_prop in H; destruct H as [H ?]) end.
      done. }
    unfold formattedNews, retained. by rewrite (filterM_none _ _ Hdrop).
Qed.

(** C5, the claim as stated fails: formatting the formatted sample
    articles does not give them back. *)
Lemma formattedNews_not_idempotent :
  (let* out := formattedNews sampleNow sampleArticles in formattedNews sampleNow out)
  <> formattedNews sampleNow sampleArticles.
Proof. vm_compute. discriminate. Qed.

(** C6.  The formatted news are the images, in order, of a subsequence of
    the raw articles: whenever the pipeline produces an output there are
    retained articles, a sublist of the input, whose formatted records are
    the output elements one by one; so each output element comes from its
    own input article and no reordering happens.  On a list of
    well-formed raw articles the pipeline does produce an output. *)
Theorem formattedNews_subsequence (now : string) (articles : list value) :
  (forall out, formattedNews now articles = Ok out ->
     exists kept, sublist kept articles /\
       retained articles = Ok kept /\
       Forall2 (fun a p => formatArticle now a = Ok p /\
                           field "title" p = field "title" a /\
                           field "source" p = field "name" (field "source" a))
               kept out) /\
  (Forall (fun a => wellFormedArticle a = true) articles ->
     exists out, formattedNews now articles = Ok out).
Proof.
  split.
  - intros out H. unfold formattedNews in H. bind_inv H. exists x.
    pose proof (retained_Ok_inv _ _ Hm) as (Hs & _ & _).
    repeat split; try done.
    apply mapM_Ok_inv in H. eapply Forall2_impl; [exact H|].
    intros a p Hf. split; [done|]. by apply formatArticle_Ok_inv in Hf.
  - intros Hw. destruct (formattedNews_total now _ Hw) as (kept & out & _ & Hout & _).
    eauto.
Qed.

(** The success answer of the news handler. *)
Lemma companyNewsOn_Ok (now companyName : string) (data : value) (articles out : list value) :
  nullish data = false ->
  or_else (field "articles" data) (VArr []) = VArr articles ->
  formattedNews now articles = Ok out ->
  companyNewsOn now companyName (Ok data) =
    Response 200 (VObj [("companyName", VStr companyName);
                        ("totalResults", or_else (field "totalResults" data) (VNum 0));
                        ("news", VArr out)]).
Proof.
  intros Hd Ha Hf. unfold companyNewsOn. cbn [bind].
  rewrite !getProp_Ok by done. cbn [bind]. rewrite Ha. cbn [asArray bind].
  rewrite Hf. reflexivity.
Qed.

(** C10.  The [totalResults] of a success answer is the payload's own
    [totalResults] (0 when it is absent or zero), whatever the articles
    are and however many of them the filter and the cap leave in [news]:
    for every article list there is a reported total that the handler
    passes on and that exceeds the length of [news], and the sample
    payload is such an input. *)
Theorem totalResults_independent_of_news :
  (forall now companyName data articles out,
     nullish data = false ->
     or_else (field "articles" data) (VArr []) = VArr articles ->
     formattedNews now articles = Ok out ->
     let r := companyNewsOn now companyName (Ok data) in
     status r = 200 /\
     field "totalResults" (body r) = or_else (field "totalResults" data) (VNum 0) /\
     field "news" (body r) = VArr out) /\
  (forall now companyName articles out,
     formattedNews now articles = Ok out ->
     exists total : Z,
       (Z.of_nat (length out) < total) /\
       let r := companyNewsOn now companyName
                  (Ok (VObj [("totalResults", VNum total); ("articles", VArr articles)])) in
       field "totalResults" (body r) = VNum total /\ field "news" (body r) = VArr out) /\
  (exists out,
     let r := companyNewsOn sampleNow "Apple"
                (Ok (VObj [("status", VStr "ok"); ("totalResults", VNum 1342);
                           ("articles", VArr sampleArticles)])) in
     field "totalResults" (body r) = VNum 1342 /\ field "news" (body r) = VArr out /\
     length out = 2%nat).
Proof.
  split; [|split].
  - intros now companyName data articles out Hd Ha Hf r. subst r.
    by rewrite (companyNewsOn_Ok _ _ _ _ _ Hd Ha Hf).
  - intros now companyName articles out Hf.
    exists (Z.of_nat (length out) + 1). split; [lia|].
    rewrite (companyNewsOn_Ok now companyName _ articles out); try done.
    cbn. unfold or_else. cbn.
    destruct (Z.eqb_spec (Z.of_nat (length out) + 1) 0) as [E|E]; [lia|done].
  - eexists. vm_compute. repeat split.
Qed.

Lemma formattedNews_capped_and_clean_witness :
  exists out, formattedNews sampleNow sampleArticles = Ok out /\
              (length out <= 8)%nat /\
              Forall (fun p => publicArticleText p = true) out.
Proof.
  destruct (formattedNews_capped_and_clean sampleNow sampleArticles) as [_ Htotal].
  destruct Htotal as (out & Hout & Hlen & _ & Htext).
  - repeat constructor.
  - exists out. by repeat split.
Defined.

Lemma formattedNews_subsequence_witness :
  exists kept, sublist kept sampleArticles /\ retained sampleArticles = Ok kept /\
               length kept = 2%nat.
Proof.
  destruct (formattedNews_subsequence sampleNow sampleArticles) as [Hsub Htotal].
  destruct Htotal as [out Hout]; [repeat constructor|].
  destruct (Hsub out Hout) as (kept & Hs & Hret & _).
  exists kept. repeat split; try done.
  vm_compute in Hret. by injection Hret as <-.
Defined.

Lemma retained_idempotent_witness :
  exists kept, retained sampleArticles = Ok kept /\ retained kept = Ok kept /\
               length kept = 2%nat.
Proof.
  destruct (retained_idempotent sampleNow sampleArticles) as [Hidem _].
  exists (take 8 [sampleArticle "Apple unveils new chip" "Reuters";
                  sampleArticle "Apple earnings beat" "CNBC"]).
  split; [reflexivity|]. split; [|reflexivity].
  apply Hidem. reflexivity.
Defined.

End News.

(* ================================================================== *)
(** ** Company information                                              *)
(* ================================================================== *)

Section CompanyInfo.

Import Server.

(** C3.  The fundamentals payload is classified in this order: a payload
    with a rate-limit marker (a truthy [Note]) is answered 429 with the
    quota suggestion; otherwise one with an informational marker (a
    truthy [Information]) is answered 400 with the marker as detail;
    otherwise one with neither a [Name] nor a [Symbol] (both absent or
    empty) is answered 404; otherwise formatting proceeds: when the name
    to print ([Name], or the request symbol) converts to a string the
    answer is 200 with the formatted company info, and when that
    conversion throws the handler's catch answers 500. *)
Theorem companyInfo_classification (symbol : string) (data : value)
  (Hdata : nullish data = false) :
  let r := companyInfoOn symbol (Ok data) in
  (truthy (field "Note" data) = true ->
     status r = 429 /\
     field "error" (body r) = VStr "API rate limit reached" /\
     field "suggestion" (body r) =
       VStr "Alpha Vantage allows 5 requests per minute. Please try again in a moment.") /\
  (truthy (field "Note" data) = false ->
   truthy (field "Information" data) = true ->
     status r = 400 /\
     field "error" (body r) = VStr "API request issue" /\
     field "details" (body r) = field "Information" data) /\
  (truthy (field "Note" data) = false ->
   truthy (field "Information" data) = false ->
   truthy (field "Name" data) = false ->
   truthy (field "Symbol" data) = false ->
     status r = 404 /\
     field "error" (body r) = VStr "Company not found") /\
  (truthy (field "Note" data) = false ->
   truthy (field "Information" data) = false ->
   (truthy (field "Name" data) || truthy (field "Symbol" data))%bool = true ->
     (forall name,
        toStr (or_else (field "Name" data) (VStr symbol)) = Ok name ->
        ascii_only name = true ->
        ascii_only symbol = true ->
        exists info, companyInfo symbol data = Ok info /\ r = Response 200 info) /\
     (forall error,
        toStr (or_else (field "Name" data) (VStr symbol)) = Throw error ->
        status r = 500 /\
        field "error" (body r) = VStr "Failed to fetch company information" /\
        field "details" (body r) = VStr (err_message error))).
Proof.
  intros r. subst r. unfold companyInfoOn. cbn [bind].
  rewrite !getProp_Ok by done. cbn [bind].
  split; [|split; [|split]].
  - intros H. by rewrite H.
  - intros H1 H2. by rewrite H1, H2.
  - intros H1 H2 H3 H4. by rewrite H1, H2, H3, H4.
  - intros H1 H2 H3. rewrite H1, H2.
    replace (negb (truthy (field "Name" data)) && negb (truthy (field "Symbol" data)))%bool
      with false
      by (by destruct (truthy (field "Name" data)), (truthy (field "Symbol" data))).
    unfold companyInfo, annualReport. split.
    + intros name Hname _ _.
      destruct (truthy (field "Symbol" data)); cbn [bind]; rewrite ?Hname; cbn [bind];
        eauto.
    + intros error Hname.
      destruct (truthy (field "Symbol" data)); cbn [bind]; rewrite ?Hname; cbn [bind];
        done.
Qed.

Lemma companyInfo_classification_witness :
  status (companyInfoOn "IBM" (Ok rateLimitNote)) = 429 /\
  status (companyInfoOn "IBM" (Ok (VObj []))) = 404.
Proof.
  split.
  - apply (companyInfo_classification "IBM" rateLimitNote); reflexivity.
  - apply (companyInfo_classification "IBM" (VObj [])); reflexivity.
Defined.

End CompanyInfo.

(* ================================================================== *)
(** ** Symbol resolution                                                *)
(* ================================================================== *)

Section SymbolResolution.

Import Server.

Lemma or_else_text (v : value) :
  is_text v = true -> or_else v (VStr "") = VStr (text v).
Proof.
  destruct v; try discriminate; try reflexivity.
  intros _. unfold or_else. simpl.
  by destruct (String.eqb_spec s "") as [->|].
Qed.

Lemma qualifying_truthy (searchKey : string) (m : value) :
  qualifying searchKey m = true -> truthy m = true.
Proof.
  unfold qualifying. destruct m; try reflexivity; simpl;
    by rewrite andb_false_r.
Qed.

(** An own key of the alias table finds its symbol, a non-empty string. *)
Lemma ownProperty_commonCompanies (key symbol : string) :
  ownProperty key commonCompanies = Some symbol ->
  commonCompaniesGet key = VStr symbol /\ truthy (VStr symbol) = true.
Proof.
  intros H. unfold commonCompaniesGet. rewrite H. split; [done|].
  unfold commonCompanies in H. simpl in H.
  repeat match type of H with
         | (if ?b then _ else _) = _ => destruct b; [by injection H as <-|]
         end.
  discriminate.
Qed.

(** The [try] block on a payload that is an object without a rate-limit
    marker. *)
Lemma resolve_unmarked (companyName : string) (data : value) :
  nullish data = false ->
  truthy (field "Note" data) = false ->
  resolve companyName (Ok data) =
    if truthy (commonCompaniesGet (trim (toLowerCase companyName)))
    then Ok (directMatchBody (commonCompaniesGet (trim (toLowerCase companyName))) companyName)
    else fromMatches (trim (toLowerCase companyName))
           (or_else (field "bestMatches" data) (VArr [])).
Proof.
  intros Hd Hn. unfold resolve. cbn [bind].
  rewrite !getProp_Ok by done. cbn [bind]. by rewrite Hn.
Qed.

Lemma resolve_marked (companyName : string) (data : value) :
  nullish data = false ->
  truthy (field "Note" data) = true ->
  resolve companyName (Ok data) = Ok rateLimitedBody.
Proof.
  intros Hd Hn. unfold resolve. cbn [bind].
  rewrite !getProp_Ok by done. cbn [bind]. by rewrite Hn.
Qed.

(** One turn of the loop on a well-formed match, when the current
    [topMatch] is [null] or an earlier well-formed qualifying match. *)
Lemma selectLoop_step (searchKey : string) (top m : value) (rest : list value) :
  wellFormedMatch m = true ->
  top = VNull \/ (wellFormedMatch top = true /\ truthy top = true) ->
  selectLoop searchKey top (m :: rest) =
    if qualifying searchKey m then
      if (String.eqb searchKey "apple" &&
          includes (toLowerCase (text (field "2. name" m))) "apple inc")%bool
      then Ok m
      else selectLoop searchKey
             (if (negb (truthy top) || Nat.ltb (nameLength m) (nameLength top))%bool
              then m else top) rest
    else selectLoop searchKey top rest.
Proof.
  intros Hm Htop. unfold wellFormedMatch in Hm.
  repeat (apply andb_prop in Hm; destruct Hm as [Hm ?]).
  apply negb_true_iff in Hm.
  cbn [selectLoop]. rewrite !getProp_Ok by done. cbn [bind].
  rewrite !or_else_text by done. cbn [toLowerCaseV bind is_str includesV].
  unfold qualifying.
  destruct (includes (toLowerCase (text (field "2. name" m))) searchKey); cbn [andb bind];
    [|done].
  destruct (String.eqb (text (field "4. region" m)) "United States"); cbn [andb bind];
    [|done].
  destruct (includes (text (field "3. type" m)) "Equity"); cbn [andb bind]; [|done].
  destruct (String.eqb searchKey "apple" &&
            includes (toLowerCase (text (field "2. name" m))) "apple inc")%bool; [done|].
  destruct Htop as [->|[Hw Ht]]; [done|].
  rewrite Ht. cbn [negb orb].
  unfold wellFormedMatch in Hw.
  repeat (apply andb_prop in Hw; destruct Hw as [Hw ?]).
  apply negb_true_iff in Hw.
  rewrite getProp_Ok by done. cbn [bind].
  rewrite or_else_text by done.
  unfold lt_length, nameLength, toLowerCase. cbn [lengthV].
  by rewrite length_map_string.
Qed.

(** The loop from a qualifying [topMatch]: the answer is [topMatch] when no
    later candidate has a strictly shorter name, and otherwise the first
    of the later candidates whose name is the shortest. *)
Lemma selectLoop_keep (searchKey : string) (rest : list value) :
  searchKey <> "apple" ->
  Forall (fun m => wellFormedMatch m = true) rest ->
  forall top,
    wellFormedMatch top = true -> qualifying searchKey top = true ->
    exists r,
      selectLoop searchKey top rest = Ok r /\
      ((r = top /\
        Forall (fun q => qualifying searchKey q = true ->
                         (nameLength top <= nameLength q)%nat) rest) \/
       (exists pre post,
          rest = (pre ++ r :: post)%list /\
          qualifying searchKey r = true /\
          (nameLength r < nameLength top)%nat /\
          Forall (fun q => qualifying searchKey q = true ->
                           (nameLength r < nameLength q)%nat) pre /\
          Forall (fun q => qualifying searchKey q = true ->
                           (nameLength r <= nameLength q)%nat) post)).
Proof.
  intros Hkey Hrest. apply eqb_string_false in Hkey.
  induction Hrest as [|m rest Hm Hrest IH]; intros top Hw Hq.
  - exists top. split; [done|]. left. by split.
  - rewrite selectLoop_step; [|done|right; eauto using qualifying_truthy].
    rewrite Hkey. cbn [andb].
    rewrite (qualifying_truthy _ _ Hq). cbn [negb orb].
    destruct (qualifying searchKey m) eqn:Hqm.
    + destruct (Nat.ltb_spec (nameLength m) (nameLength top)) as [Hlt|Hge].
      * destruct (IH m Hm Hqm) as (r & Hr & [[-> Hall]|(pre & post & -> & Hqr & Hlen & Hpre & Hpost)]).
        -- exists m. split; [done|]. right. exists [], rest.
           repeat split; try done.
        -- exists r. split; [done|]. right. exists (m :: pre), post.
           repeat split; try done; [lia|].
           constructor; [intros _; lia | done].
      * destruct (IH top Hw Hq) as (r & Hr & [[-> Hall]|(pre & post & -> & Hqr & Hlen & Hpre & Hpost)]).
        -- exists top. split; [done|]. left. split; [done|].
           constructor; [intros _; lia | done].
        -- exists r. split; [done|]. right. exists (m :: pre), post.
           repeat split; try done.
           constructor; [intros _; lia | done].
    + destruct (IH top Hw Hq) as (r & Hr & [[-> Hall]|(pre & post & -> & Hqr & Hlen & Hpre & Hpost)]).
      * exists top. split; [done|]. left. split; [done|].
        constructor; [congruence | done].
      * exists r. split; [done|]. right. exists (m :: pre), post.
        repeat split; try done.
        constructor; [congruence | done].
Qed.

(** The loop from [null]: [null] when no match qualifies, and otherwise
    the first of the qualifying candidates whose name is the shortest. *)
Lemma selectLoop_first (searchKey : string) (matches : list value) :
  searchKey <> "apple" ->
  Forall (fun m => wellFormedMatch m = true) matches ->
  (Forall (fun q => qualifying searchKey q = false) matches /\
   selectLoop searchKey VNull matches = Ok VNull) \/
  (exists pre m post,
     matches = (pre ++ m :: post)%list /\
     qualifying searchKey m = true /\
     Forall (fun q => qualifying searchKey q = true ->
                      (nameLength m < nameLength q)%nat) pre /\
     Forall (fun q => qualifying searchKey q = true ->
                      (nameLength m <= nameLength q)%nat) post /\
     selectLoop searchKey VNull matches = Ok m).
Proof.
  intros Hkey Hw. pose proof (eqb_string_false _ _ Hkey) as Hkeyb.
  induction Hw as [|m rest Hm Hrest IH].
  - left. by split.
  - rewrite selectLoop_step; [|done|by left].
    rewrite Hkeyb. cbn [andb truthy negb orb].
    destruct (qualifying searchKey m) eqn:Hqm.
    + right.
      destruct (selectLoop_keep searchKey rest Hkey Hrest m Hm Hqm)
        as (r & Hr & [[-> Hall]|(pre & post & -> & Hqr & Hlen & Hpre & Hpost)]).
      * exists [], m, rest. repeat split; try done.
      * exists (m :: pre), r, post. repeat split; try done.
        constructor; [intros _; lia | done].
    + destruct IH as [[Hnone Hr]|(pre & r & post & -> & Hqr & Hpre & Hpost & Hr)].
      * left. split; [by constructor | done].
      * right. exists (m :: pre), r, post. repeat split; try done.
        constructor; [congruence | done].
Qed.

(** C1 (as amended).  For every company name whose lowercased, trimmed
    form is a key of the alias table, the resolver first issues the
    upstream symbol search, exactly once.  When that call returns a payload
    without a rate-limit marker, the answer is the alias's symbol with
    source direct_match, the company name as given, type Equity, region
    United States and currency USD, whatever matches the payload lists.
    When the payload carries a rate-limit marker, or the call fails, the
    answer is the null-symbol fall-back instead. *)
Theorem alias_match_after_upstream_call
  (net : request -> upstream) (companyName symbol : string)
  (Halias : ownProperty (trim (toLowerCase companyName)) commonCompanies = Some symbol) :
  fst (searchSymbol net companyName) = [symbolRequest companyName] /\
  (forall data,
     net (symbolRequest companyName) = Ok data ->
     nullish data = false ->
     truthy (field "Note" data) = false ->
     snd (searchSymbol net companyName) =
       Response 200 (VObj [("symbol", VStr symbol);
                           ("name", VStr companyName);
                           ("type", VStr "Equity");
                           ("region", VStr "United States");
                           ("currency", VStr "USD");
                           ("source", VStr "direct_match")])) /\
  (forall data,
     net (symbolRequest companyName) = Ok data ->
     nullish data = false ->
     truthy (field "Note" data) = true ->
     snd (searchSymbol net companyName) = Response 200 rateLimitedBody) /\
  (forall error,
     net (symbolRequest companyName) = Throw error ->
     snd (searchSymbol net companyName) = Response 200 (failedBody error)).
Proof.
  apply ownProperty_commonCompanies in Halias as [Hget Htruthy].
  unfold searchSymbol, searchSymbolOn. cbn [fst snd].
  split; [done|]. split; [|split].
  - intros data -> Hd Hn. rewrite resolve_unmarked by done.
    by rewrite Hget, Htruthy.
  - intros data -> Hd Hn. by rewrite resolve_marked.
  - by intros error ->.
Qed.

Lemma alias_match_after_upstream_call_witness :
  snd (searchSymbol (fun _ => Ok appleSearch) "  ApPLe ") =
    Response 200 (directMatchBody (VStr "AAPL") "  ApPLe ").
Proof.
  destruct (alias_match_after_upstream_call (fun _ => Ok appleSearch) "  ApPLe " "AAPL")
    as (_ & Hdirect & _).
  - reflexivity.
  - apply (Hdirect appleSearch); reflexivity.
Defined.

(** C1, the claim as stated fails: "  ApPLe " is an alias of AAPL, and
    yet the upstream call is made, and with a rate-limited or a failed
    upstream the answer has a null symbol. *)
Lemma alias_match_depends_on_upstream :
  ownProperty (trim (toLowerCase "  ApPLe ")) commonCompanies = Some "AAPL" /\
  searchSymbol (fun _ => Ok rateLimitNote) "  ApPLe " =
    ([symbolRequest "  ApPLe "], Response 200 rateLimitedBody) /\
  searchSymbol (fun _ => Throw transportFailure) "  ApPLe " =
    ([symbolRequest "  ApPLe "], Response 200 (failedBody transportFailure)) /\
  field "symbol" rateLimitedBody = VNull /\
  field "symbol" (failedBody transportFailure) = VNull.
Proof. repeat split. Qed.

(** C2 (as amended).  For every company name and every upstream outcome
    the resolver answers with status 200.  A failed call, or an exception
    while the payload is processed, is answered with symbol null, fallback
    true, a message and the error text; a rate-limit marker with symbol
    null, fallback true and a message; no match (no alias and an empty
    match list) with symbol null, a message and a suggestion, and without
    a fallback property. *)
Theorem searchSymbol_always_200 (companyName : string) (up : upstream) :
  let r := searchSymbolOn companyName up in
  status r = 200 /\
  (forall error, up = Throw error -> body r = failedBody error) /\
  (forall error, resolve companyName up = Throw error -> body r = failedBody error) /\
  (forall data, up = Ok data -> nullish data = false ->
     truthy (field "Note" data) = true -> body r = rateLimitedBody) /\
  (forall data, up = Ok data -> nullish data = false ->
     truthy (field "Note" data) = false ->
     truthy (commonCompaniesGet (trim (toLowerCase companyName))) = false ->
     iterate (or_else (field "bestMatches" data) (VArr [])) = Ok [] ->
     body r = noMatchBody) /\
  (forall error,
     field "symbol" (failedBody error) = VNull /\
     field "fallback" (failedBody error) = VBool true /\
     field "message" (failedBody error) =
       VStr "Symbol search failed, but news search will still work" /\
     field "error" (failedBody error) = VStr (err_message error)) /\
  (field "symbol" rateLimitedBody = VNull /\
   field "fallback" rateLimitedBody = VBool true /\
   field "message" rateLimitedBody =
     VStr "Symbol search temporarily unavailable due to API limits") /\
  (field "symbol" noMatchBody = VNull /\
   field "fallback" noMatchBody = VUndefined /\
   field "message" noMatchBody =
     VStr "No matching stock symbol found. Company may be private or use different name." /\
   field "suggestion" noMatchBody =
     VStr "Try searching with the exact company legal name or stock ticker").
Proof.
  intros r. subst r. unfold searchSymbolOn.
  split; [by destruct (resolve companyName up)|].
  split; [by intros error ->|].
  split; [by intros error ->|].
  split; [intros data -> Hd Hn; by rewrite resolve_marked|].
  split; [|by repeat split].
  intros data -> Hd Hn Halias Hiter. rewrite resolve_unmarked by done.
  rewrite Halias. unfold fromMatches. by rewrite Hiter.
Qed.

(** C2, the claim as stated fails: the no-match answer has a null symbol
    and no fallback property. *)
Lemma no_match_without_fallback :
  searchSymbolOn "Initech" (Ok (VObj [("bestMatches", VArr [])])) =
    Response 200 noMatchBody /\
  field "symbol" noMatchBody = VNull /\
  field "fallback" noMatchBody <> VBool true.
Proof. repeat split. discriminate. Qed.

(** C7 (as amended).  On search key "apple" and the two raw matches of the
    scenario the loop of server.js selects the "Apple Inc" match, and the
    code after the alias check would answer with its fields.  The resolver
    of server.js does not get there: "apple" is a key of its alias table,
    so it answers AAPL from the table, with the company name as given,
    type Equity, region United States, currency USD and source
    direct_match.  The resolver of nodejs-backend.js, which has no alias
    table, answers with the first United States equity, the "Apple
    Hospitality REIT" match. *)
Theorem apple_scenario :
  selectLoop "apple" VNull [appleHospitality; appleInc] = Ok appleInc /\
  fromMatches "apple" (VArr [appleHospitality; appleInc]) = Ok (apiSearchBody appleInc) /\
  field "name" (apiSearchBody appleInc) = VStr "Apple Inc" /\
  commonCompaniesGet "apple" = VStr "AAPL" /\
  searchSymbolOn "apple" (Ok appleSearch) =
    Response 200 (directMatchBody (VStr "AAPL") "apple") /\
  NodejsBackend.searchSymbolOn "apple" (Ok appleSearch) =
    Response 200 (NodejsBackend.apiSearchBody appleHospitality).
Proof. repeat split. Qed.

(** C7, the claim as stated fails: the alias table of server.js does
    resolve "apple", and the answer of neither resolver to the scenario
    is the "Apple Inc" match. *)
Lemma apple_resolved_by_alias_table :
  ownProperty "apple" commonCompanies = Some "AAPL" /\
  searchSymbolOn "apple" (Ok appleSearch) <> Response 200 (apiSearchBody appleInc) /\
  field "name" (body (searchSymbolOn "apple" (Ok appleSearch))) <> VStr "Apple Inc" /\
  field "name" (body (NodejsBackend.searchSymbolOn "apple" (Ok appleSearch)))
    <> VStr "Apple Inc".
Proof. repeat split; vm_compute; discriminate. Qed.

End SymbolResolution.

(* ================================================================== *)
(** ** The two files                                                    *)
(* ================================================================== *)

Section TwoFiles.

(** The answer of [nodejs-backend.js] never has a [source] property. *)
Lemma NodejsBackend_no_source (companyName : string) (up : upstream) :
  field "source" (body (NodejsBackend.searchSymbolOn companyName up)) = VUndefined.
Proof.
  unfold NodejsBackend.searchSymbolOn, NodejsBackend.resolve.
  destruct up as [data|error]; cbn [bind]; [|done].
  unfold getProp. destruct (nullish data); cbn [bind]; [done|].
  destruct (truthy (field "Note" data)); [done|].
  unfold NodejsBackend.fromMatches.
  destruct (iterate _) as [items|error]; cbn [bind]; [|done].
  destruct (NodejsBackend.selectLoop items) as [top|error]; cbn [bind]; [|done].
  destruct items as [|first items].
  - destruct (truthy top); [|done]. by destruct (toStr _).
  - destruct (truthy (if truthy top then top else first)); [|done].
    by destruct (toStr _).
Qed.

(** C9 (as amended).  The company-news and the company-info endpoints of
    the two files give equal results for every request and every upstream
    outcome.  The symbol-resolution endpoints issue the same upstream
    request, and give equal answers when the call fails, when the payload
    is null, when it carries a rate-limit marker, and when the name is no
    alias and the match list is empty.  They differ whenever the answer of
    server.js has a source property, that is, whenever server.js resolves
    a symbol from its alias table or from the matches. *)
Theorem files_agree_except_symbol_resolution :
  (forall net now companyName,
     Server.companyNews net now companyName = NodejsBackend.companyNews net now companyName) /\
  (forall net symbol,
     Server.companyInfoHandler net symbol = NodejsBackend.companyInfoHandler net symbol) /\
  (forall net companyName,
     fst (Server.searchSymbol net companyName) = fst (NodejsBackend.searchSymbol net companyName)) /\
  (forall companyName error,
     Server.searchSymbolOn companyName (Throw error) =
     NodejsBackend.searchSymbolOn companyName (Throw error)) /\
  (forall companyName data,
     nullish data = true ->
     Server.searchSymbolOn companyName (Ok data) =
     NodejsBackend.searchSymbolOn companyName (Ok data)) /\
  (forall companyName data,
     nullish data = false ->
     truthy (field "Note" data) = true ->
     Server.searchSymbolOn companyName (Ok data) =
     NodejsBackend.searchSymbolOn companyName (Ok data)) /\
  (forall companyName data,
     nullish data = false ->
     truthy (field "Note" data) = false ->
     truthy (Server.commonCompaniesGet (trim (toLowerCase companyName))) = false ->
     iterate (or_else (field "bestMatches" data) (VArr [])) = Ok [] ->
     Server.searchSymbolOn companyName (Ok data) =
     NodejsBackend.searchSymbolOn companyName (Ok data)) /\
  (forall companyName up,
     field "source" (body (Server.searchSymbolOn companyName up)) <> VUndefined ->
     Server.searchSymbolOn companyName up <> NodejsBackend.searchSymbolOn companyName up).
Proof.
  repeat match goal with |- _ /\ _ => split end; try reflexivity.
  - intros companyName data Hd.
    unfold Server.searchSymbolOn, NodejsBackend.searchSymbolOn,
      Server.resolve, NodejsBackend.resolve, getProp. cbn [bind].
    by rewrite Hd.
  - intros companyName data Hd Hn.
    unfold Server.searchSymbolOn, NodejsBackend.searchSymbolOn,
      Server.resolve, NodejsBackend.resolve, getProp. cbn [bind].
    rewrite Hd. cbn [bind]. by rewrite Hn.
  - intros companyName data Hd Hn Halias Hiter.
    unfold Server.searchSymbolOn, NodejsBackend.searchSymbolOn,
      Server.resolve, NodejsBackend.resolve, getProp. cbn [bind].
    rewrite Hd. cbn [bind]. rewrite Hn. cbn [bind]. rewrite Halias.
    unfold Server.fromMatches, NodejsBackend.fromMatches. by rewrite Hiter.
  - intros companyName up Hsrc Heq. apply Hsrc. rewrite Heq.
    apply NodejsBackend_no_source.
Qed.

(** C9, the claim as stated fails: on the Apple scenario server.js answers
    AAPL from its alias table and nodejs-backend.js answers with the first
    United States equity; for "ibm" and the sample matches server.js
    selects the shortest name and nodejs-backend.js the first match. *)
Lemma symbol_resolution_differs :
  Server.searchSymbolOn "apple" (Ok appleSearch) <>
    NodejsBackend.searchSymbolOn "apple" (Ok appleSearch) /\
  field "symbol" (body (Server.searchSymbolOn "ibm"
                          (Ok (VObj [("bestMatches", VArr ibmMatches)])))) = VStr "IBM" /\
  field "symbol" (body (NodejsBackend.searchSymbolOn "ibm"
                          (Ok (VObj [("bestMatches", VArr ibmMatches)])))) = VStr "IBMX".
Proof. repeat split. vm_compute. discriminate. Qed.

End TwoFiles.

(* ================================================================== *)
(** ** The search key                                                   *)
(* ================================================================== *)

Section SearchKey.

Import Server.

Lemma lower_upper_ascii (c : ascii) : lower_ascii (upper_ascii c) = lower_ascii c.
Proof. by destruct c as [[] [] [] [] [] [] [] []]. Qed.

Lemma is_space_lower_ascii (c : ascii) : is_space (lower_ascii c) = is_space c.
Proof. by destruct c as [[] [] [] [] [] [] [] []]. Qed.

Lemma is_upper_lower_ascii (c : ascii) : is_upper (lower_ascii c) = false.
Proof. by destruct c as [[] [] [] [] [] [] [] []]. Qed.

Lemma toLowerCase_toUpperCase (s : string) : toLowerCase (toUpperCase s) = toLowerCase s.
Proof.
  unfold toLowerCase, toUpperCase.
  induction s as [|c s IH]; simpl; [done|]. by rewrite lower_upper_ascii, IH.
Qed.

Lemma toLowerCase_app (a b : string) :
  toLowerCase (a ++ b) = toLowerCase a ++ toLowerCase b.
Proof.
  unfold toLowerCase. induction a as [|c a IH]; simpl; [done|]. by rewrite IH.
Qed.

Lemma all_space_toLowerCase (s : string) : all_space (toLowerCase s) = all_space s.
Proof.
  unfold toLowerCase. induction s as [|c s IH]; simpl; [done|].
  by rewrite is_space_lower_ascii, IH.
Qed.

Lemma trimStart_all_space (pad : string) : all_space pad = true -> trimStart pad = "".
Proof.
  induction pad as [|c pad IH]; simpl; [done|].
  intros H. apply andb_prop in H as [-> H]. auto.
Qed.

Lemma trimStart_pad (pad s : string) :
  all_space pad = true -> trimStart (pad ++ s) = trimStart s.
Proof.
  induction pad as [|c pad IH]; simpl; [done|].
  intros H. apply andb_prop in H as [-> H]. auto.
Qed.

Lemma trimEnd_all_space (pad : string) : all_space pad = true -> trimEnd pad = "".
Proof.
  induction pad as [|c pad IH]; simpl; [done|].
  intros H. apply andb_prop in H as [-> H]. by rewrite IH.
Qed.

Lemma trimEnd_pad (s pad : string) :
  all_space pad = true -> trimEnd (s ++ pad) = trimEnd s.
Proof.
  intros H. induction s as [|c s IH]; simpl; [by apply trimEnd_all_space|].
  by rewrite IH.
Qed.

Lemma trim_pad (p1 s p2 : string) :
  all_space p1 = true -> all_space p2 = true -> trim (p1 ++ s ++ p2) = trim s.
Proof.
  intros H1 H2. unfold trim. rewrite trimStart_pad by done. clear H1.
  induction s as [|c s IH]; simpl.
  - by rewrite trimStart_all_space.
  - destruct (is_space c); [done|].
    change (String c (s ++ p2)) with (String c s ++ p2). by apply trimEnd_pad.
Qed.

(** The search key does not depend on the letter case of the company
    name or on white space around it. *)
Lemma searchKey_normal (p1 name p2 : string) :
  all_space p1 = true -> all_space p2 = true ->
  trim (toLowerCase (p1 ++ toUpperCase name ++ p2)) = trim (toLowerCase name) /\
  trim (toLowerCase (p1 ++ name ++ p2)) = trim (toLowerCase name).
Proof.
  intros H1 H2. rewrite !toLowerCase_app, toLowerCase_toUpperCase.
  split; apply trim_pad; by rewrite all_space_toLowerCase.
Qed.

(** X1 (alias lookup is case- and white-space-insensitive).  When a
    company name resolves through the alias table, so does the name in
    upper case, and the name with white space around it, to the same
    symbol, on every payload without a rate-limit marker. *)
Theorem alias_lookup_insensitive
  (p1 name p2 symbol : string) (data : value)
  (Hp1 : all_space p1 = true) (Hp2 : all_space p2 = true)
  (Halias : ownProperty (trim (toLowerCase name)) commonCompanies = Some symbol)
  (Hdata : nullish data = false)
  (Hnote : truthy (field "Note" data) = false) :
  searchSymbolOn (p1 ++ toUpperCase name ++ p2) (Ok data) =
    Response 200 (directMatchBody (VStr symbol) (p1 ++ toUpperCase name ++ p2)) /\
  searchSymbolOn (p1 ++ name ++ p2) (Ok data) =
    Response 200 (directMatchBody (VStr symbol) (p1 ++ name ++ p2)).
Proof.
  destruct (searchKey_normal p1 name p2 Hp1 Hp2) as [Hu Hn].
  apply ownProperty_commonCompanies in Halias as [Hget Ht].
  unfold searchSymbolOn. rewrite !resolve_unmarked by done.
  by rewrite Hu, Hn, Hget, Ht.
Qed.

Lemma alias_lookup_insensitive_witness :
  field "symbol" (body (searchSymbolOn "  TESLA  " (Ok appleSearch))) = VStr "TSLA".
Proof.
  exact (f_equal (fun r => field "symbol" (body r))
           (proj1 (alias_lookup_insensitive "  " "Tesla" "  " "TSLA" appleSearch
                     eq_refl eq_refl eq_refl eq_refl eq_refl))).
Defined.

Lemma has_upper_toLowerCase (s : string) : has_upper (toLowerCase s) = false.
Proof.
  unfold toLowerCase. induction s as [|c s IH]; simpl; [done|].
  by rewrite is_upper_lower_ascii, IH.
Qed.

Lemma has_upper_trimStart (s : string) :
  has_upper s = false -> has_upper (trimStart s) = false.
Proof.
  induction s as [|c s IH]; simpl; [done|].
  intros H. apply orb_false_elim in H as [Hc Hs].
  destruct (is_space c); [auto|]. simpl. by rewrite Hc, Hs.
Qed.

Lemma has_upper_trimEnd (s : string) :
  has_upper s = false -> has_upper (trimEnd s) = false.
Proof.
  induction s as [|c s IH]; simpl; [done|].
  intros H. apply orb_false_elim in H as [Hc Hs]. specialize (IH Hs).
  destruct (trimEnd s) as [|d t].
  - destruct (is_space c); [done|]. simpl. by rewrite Hc.
  - change (has_upper (String c (String d t))) with (is_upper c || has_upper (String d t))%bool.
    by rewrite Hc, IH.
Qed.

Lemma has_upper_searchKey (companyName : string) :
  has_upper (trim (toLowerCase companyName)) = false.
Proof.
  unfold trim. apply has_upper_trimEnd, has_upper_trimStart, has_upper_toLowerCase.
Qed.

(** X2 (inherited properties count as aliases).  The alias table is an
    object literal, so a search key that names a property of
    Object.prototype is found in it as well.  Of those names only
    "constructor" and "__proto__" are in lower case and can be a search
    key; for them, on every payload without a rate-limit marker, the
    resolver answers as for a direct match, with a symbol that is no
    string, whatever matches the payload lists. *)
Theorem inherited_key_is_direct_match (companyName : string) (data : value)
  (Hdata : nullish data = false)
  (Hnote : truthy (field "Note" data) = false) :
  let key := trim (toLowerCase companyName) in
  (forall name, commonCompaniesGet key = VHost name ->
     name = key /\ (key = "constructor" \/ key = "__proto__")) /\
  (key = "constructor" \/ key = "__proto__" ->
     searchSymbolOn companyName (Ok data) =
       Response 200 (directMatchBody (VHost key) companyName)).
Proof.
  intros key. pose proof (has_upper_searchKey companyName) as Hup.
  fold key in Hup. split.
  - intros name. unfold commonCompaniesGet.
    destruct (ownProperty key commonCompanies); [discriminate|].
    destruct (existsb (String.eqb key) objectPrototypeKeys) eqn:Hex; [|discriminate].
    intros [= <-]. split; [done|].
    apply existsb_exists in Hex as (k & Hin & Hk). apply String.eqb_eq in Hk. subst k.
    simpl in Hin.
    repeat (destruct Hin as [Hin|Hin]; [try (by auto); rewrite <- Hin in Hup; discriminate|]).
    done.
  - intros Hkey. unfold searchSymbolOn. rewrite resolve_unmarked by done.
    fold key. by destruct Hkey as [-> | ->].
Qed.

Lemma inherited_key_is_direct_match_witness :
  searchSymbolOn " Constructor" (Ok appleSearch) =
    Response 200 (directMatchBody (VHost "constructor") " Constructor").
Proof.
  exact (proj2 (inherited_key_is_direct_match " Constructor" appleSearch eq_refl eq_refl)
           (or_introl eq_refl)).
Defined.

End SearchKey.

(* ================================================================== *)
(** ** The answers of the symbol resolvers                              *)
(* ================================================================== *)

Section Answers.

(** Whatever the matches are, the loop of server.js ends with the
    [topMatch] it started from or with one of the matches. *)
Lemma Server_selectLoop_In (searchKey : string) (matches : list value) :
  forall top r,
    Server.selectLoop searchKey top matches = Ok r -> r = top \/ In r matches.
Proof.
  induction matches as [|m rest IH]; intros top r H; simpl in H.
  - injection H as <-. by left.
  - do 5 bind_inv H.
    destruct x3.
    + destruct (String.eqb searchKey "apple" && includes x0 "apple inc")%bool.
      * injection H as <-. right. by left.
      * bind_inv H. apply IH in H as [->|Hin]; [|right; by right].
        match goal with
        | |- context [if ?b then _ else _] => destruct b
        end; [right; by left | by left].
    + apply IH in H as [->|Hin]; [by left | right; by right].
Qed.

Lemma NodejsBackend_selectLoop_In (matches : list value) (r : value) :
  NodejsBackend.selectLoop matches = Ok r -> r = VNull \/ In r matches.
Proof.
  induction matches as [|m rest IH]; intros H; simpl in H.
  - injection H as <-. by left.
  - do 4 bind_inv H. destruct x2.
    + injection H as <-. right. by left.
    + apply IH in H as [->|Hin]; [by left | right; by right].
Qed.

(** X3 (the five answers of server.js).  For every company name and every
    upstream outcome the answer of the resolver of server.js is one of:
    the failure fall-back, the rate-limit fall-back, a direct match on the
    name as given, the no-match answer, or the fields of one of the
    elements of the payload's match list.  It never answers with a match
    that the upstream did not list. *)
Theorem Server_answer_shapes (companyName : string) (up : upstream) :
  let r := Server.searchSymbolOn companyName up in
  status r = 200 /\
  ((exists error, body r = Server.failedBody error) \/
   body r = Server.rateLimitedBody \/
   (exists symbol, truthy symbol = true /\
      body r = Server.directMatchBody symbol companyName) \/
   body r = Server.noMatchBody \/
   (exists data items m,
      up = Ok data /\
      iterate (or_else (field "bestMatches" data) (VArr [])) = Ok items /\
      In m items /\ truthy m = true /\
      body r = Server.apiSearchBody m)).
Proof.
  intros r. subst r. unfold Server.searchSymbolOn.
  destruct (Server.resolve companyName up) as [json|error] eqn:Hres;
    cbn [status body]; (split; [done|]); [|left; eauto].
  destruct up as [data|error]; [|discriminate].
  unfold Server.resolve in Hres. cbn [bind] in Hres.
  bind_inv Hres. apply getProp_Ok_inv in Hm as [Hd ->].
  destruct (truthy (field "Note" data)); [injection Hres as <-; auto|].
  rewrite getProp_Ok in Hres by done. cbn [bind] in Hres.
  destruct (truthy (Server.commonCompaniesGet (trim (toLowerCase companyName)))) eqn:Ha.
  { injection Hres as <-. right. right. left. eauto. }
  unfold Server.fromMatches in Hres. do 2 bind_inv Hres.
  apply Server_selectLoop_In in Hm0.
  destruct (truthy match x with
                   | [] => x0
                   | first :: _ => if truthy x0 then x0 else first
                   end) eqn:Ht;
    [bind_inv Hres|]; injection Hres as <-; [|auto].
  do 4 right. exists data, x. eexists. repeat split; try done.
  destruct x as [|first items].
  - destruct Hm0 as [->|[]]. discriminate.
  - destruct (truthy x0) eqn:Hx0; [|by left].
    destruct Hm0 as [->|Hin]; [discriminate | done].
Qed.

(** X4 (the four answers of nodejs-backend.js).  For every company name
    and every upstream outcome the answer of the resolver of
    nodejs-backend.js is the failure fall-back, the rate-limit fall-back,
    the no-match answer, or the fields of one of the elements of the
    payload's match list; the company name has no part in it. *)
Theorem NodejsBackend_answer_shapes (companyName : string) (up : upstream) :
  let r := NodejsBackend.searchSymbolOn companyName up in
  status r = 200 /\
  ((exists error, body r = NodejsBackend.failedBody error) \/
   body r = NodejsBackend.rateLimitedBody \/
   body r = NodejsBackend.noMatchBody \/
   (exists data items m,
      up = Ok data /\
      iterate (or_else (field "bestMatches" data) (VArr [])) = Ok items /\
      In m items /\ truthy m = true /\
      body r = NodejsBackend.apiSearchBody m)) /\
  (forall other, NodejsBackend.searchSymbolOn other up = r).
Proof.
  intros r. subst r. split; [|split; [|done]].
  { unfold NodejsBackend.searchSymbolOn.
    by destruct (NodejsBackend.resolve companyName up). }
  unfold NodejsBackend.searchSymbolOn.
  destruct (NodejsBackend.resolve companyName up) as [json|error] eqn:Hres;
    cbn [status body]; [|left; eauto].
  destruct up as [data|error]; [|discriminate].
  unfold NodejsBackend.resolve in Hres. cbn [bind] in Hres.
  bind_inv Hres. apply getProp_Ok_inv in Hm as [Hd ->].
  destruct (truthy (field "Note" data)); [injection Hres as <-; auto|].
  rewrite getProp_Ok in Hres by done. cbn [bind] in Hres.
  unfold NodejsBackend.fromMatches in Hres. do 2 bind_inv Hres.
  apply NodejsBackend_selectLoop_In in Hm0.
  destruct (truthy match x with
                   | [] => x0
                   | first :: _ => if truthy x0 then x0 else first
                   end) eqn:Ht;
    [bind_inv Hres|]; injection Hres as <-; [|auto].
  do 3 right. exists data, x. eexists. repeat split; try done.
  destruct x as [|first items].
  - destruct Hm0 as [->|[]]. discriminate.
  - destruct (truthy x0) eqn:Hx0; [|by left].
    destruct Hm0 as [->|Hin]; [discriminate | done].
Qed.

End Answers.

(* ================================================================== *)
(** ** Selection of a match                                             *)
(* ================================================================== *)

Section Selection.

Lemma usEquity_truthy (m : value) : usEquity m = true -> truthy m = true.
Proof. unfold usEquity. by destruct m. Qed.

(** The loop of server.js keeps its [topMatch] over matches that do not
    qualify. *)
Lemma Server_selectLoop_skip (searchKey : string) (matches : list value) (top : value) :
  Forall (fun m => wellFormedMatch m = true) matches ->
  Forall (fun m => qualifying searchKey m = false) matches ->
  top = VNull \/ (wellFormedMatch top = true /\ truthy top = true) ->
  Server.selectLoop searchKey top matches = Ok top.
Proof.
  intros Hw. induction Hw as [|m rest Hm _ IH]; intros Hq Htop; [done|].
  inversion Hq as [|? ? Hqm Hqrest]; subst.
  rewrite selectLoop_step by done. rewrite Hqm. auto.
Qed.

(** X5 (first-match fall-back of server.js).  When the payload lists
    well-formed matches with ASCII names and none of them qualifies, the
    resolver of server.js answers with the fields of the first match,
    whatever its region and type are, provided that the symbol of that
    match can be printed for the log; when printing it throws, the answer
    is the failure fall-back.  On an empty list it answers no match. *)
Theorem Server_first_match_fallback
  (searchKey : string) (first : value) (rest : list value)
  (Hwf : Forall (fun m => wellFormedMatch m = true) (first :: rest))
  (Hascii : Forall (fun m => asciiName m = true) (first :: rest))
  (Hnone : Forall (fun m => qualifying searchKey m = false) (first :: rest))
  (Hfirst : truthy first = true) :
  (stringifiable (field "1. symbol" first) = true ->
     Server.fromMatches searchKey (VArr (first :: rest)) = Ok (Server.apiSearchBody first) /\
     forall companyName data,
       ascii_only companyName = true ->
       trim (toLowerCase companyName) = searchKey ->
       nullish data = false ->
       truthy (field "Note" data) = false ->
       truthy (Server.commonCompaniesGet searchKey) = false ->
       field "bestMatches" data = VArr (first :: rest) ->
       Server.searchSymbolOn companyName (Ok data) =
         Response 200 (Server.apiSearchBody first)) /\
  (forall error,
     toStr (field "1. symbol" first) = Throw error ->
     Server.fromMatches searchKey (VArr (first :: rest)) = Throw error) /\
  Server.fromMatches searchKey (VArr []) = Ok Server.noMatchBody.
Proof.
  assert (Server.fromMatches searchKey (VArr (first :: rest)) =
          let* logged := toStr (field "1. symbol" first) in
          Ok (Server.apiSearchBody first)) as Hfrom.
  { unfold Server.fromMatches. cbn [iterate bind].
    rewrite Server_selectLoop_skip by auto. cbn [bind truthy]. by rewrite Hfirst. }
  split; [|split; [|done]].
  - intros Hprint. unfold stringifiable in Hprint.
    destruct (toStr (field "1. symbol" first)) as [printed|error] eqn:Hp; [|discriminate].
    cbn [bind] in Hfrom. split; [done|].
    intros companyName data _ Hsk Hd Hn Ha Hbest.
    unfold Server.searchSymbolOn. rewrite resolve_unmarked by done.
    rewrite Hsk, Ha, Hbest. unfold or_else. cbn [truthy]. by rewrite Hfrom.
  - intros error Hp. rewrite Hfrom, Hp. done.
Qed.

Lemma Server_first_match_fallback_witness :
  Server.fromMatches "acme"
    (VArr [VObj [("1. symbol", VStr "SAP.DEX"); ("2. name", VStr "SAP SE");
                 ("3. type", VStr "Equity"); ("4. region", VStr "XETRA")]]) =
  Ok (Server.apiSearchBody
        (VObj [("1. symbol", VStr "SAP.DEX"); ("2. name", VStr "SAP SE");
               ("3. type", VStr "Equity"); ("4. region", VStr "XETRA")])).
Proof.
  apply (proj1 (Server_first_match_fallback "acme"
           (VObj [("1. symbol", VStr "SAP.DEX"); ("2. name", VStr "SAP SE");
                  ("3. type", VStr "Equity"); ("4. region", VStr "XETRA")]) []
           ltac:(repeat constructor) ltac:(repeat constructor)
           ltac:(repeat constructor) eq_refl)).
  reflexivity.
Defined.

(** One turn of the loop of nodejs-backend.js on a well-formed match. *)
Lemma NodejsBackend_selectLoop_step (m : value) (rest : list value) :
  wellFormedMatch m = true ->
  NodejsBackend.selectLoop (m :: rest) =
    if usEquity m then Ok m else NodejsBackend.selectLoop rest.
Proof.
  intros Hm. unfold wellFormedMatch in Hm.
  repeat (apply andb_prop in Hm; destruct Hm as [Hm ?]).
  apply negb_true_iff in Hm.
  cbn [NodejsBackend.selectLoop]. rewrite !getProp_Ok by done. cbn [bind].
  rewrite !or_else_text by done. cbn [is_str includesV]. unfold usEquity.
  destruct (String.eqb (text (field "4. region" m)) "United States"); cbn [andb bind];
    [|done].
  by destruct (includes (text (field "3. type" m)) "Equity").
Qed.

Lemma NodejsBackend_selectLoop_skip (pre rest : list value) :
  Forall (fun m => wellFormedMatch m = true) pre ->
  Forall (fun m => usEquity m = false) pre ->
  NodejsBackend.selectLoop (pre ++ rest) = NodejsBackend.selectLoop rest.
Proof.
  intros Hw. induction Hw as [|m pre Hm _ IH]; intros Hq; [done|].
  inversion Hq as [|? ? Hqm Hqrest]; subst.
  change ((m :: pre) ++ rest)%list with (m :: (pre ++ rest))%list.
  rewrite NodejsBackend_selectLoop_step by done. rewrite Hqm. auto.
Qed.

(** The loop of nodejs-backend.js stops at the first match of region
    United States whose type contains Equity. *)
Lemma NodejsBackend_selectLoop_first (pre post : list value) (m : value) :
  Forall (fun q => wellFormedMatch q = true) (pre ++ m :: post) ->
  Forall (fun q => usEquity q = false) pre ->
  usEquity m = true ->
  NodejsBackend.selectLoop (pre ++ m :: post) = Ok m.
Proof.
  intros Hwf Hpre Hm. apply Forall_app in Hwf as [Hwpre Hwrest].
  inversion Hwrest as [|? ? Hwm _]; subst.
  rewrite NodejsBackend_selectLoop_skip by done.
  rewrite NodejsBackend_selectLoop_step by done. by rewrite Hm.
Qed.

(** X6 (selection of nodejs-backend.js).  On a list of well-formed matches
    the loop of nodejs-backend.js selects the first match of region United
    States whose type contains Equity, whatever its name is; when there is
    none, the first match of the list is taken.  The resolver answers with
    the fields of that match when its symbol can be printed for the log,
    and fails into the catch when printing it throws. *)
Theorem NodejsBackend_first_us_equity (matches : list value)
  (Hwf : Forall (fun m => wellFormedMatch m = true) matches) :
  (forall pre m post,
     matches = (pre ++ m :: post)%list ->
     Forall (fun q => usEquity q = false) pre ->
     usEquity m = true ->
     NodejsBackend.selectLoop matches = Ok m /\
     (stringifiable (field "1. symbol" m) = true ->
        NodejsBackend.fromMatches (VArr matches) = Ok (NodejsBackend.apiSearchBody m)) /\
     (forall error, toStr (field "1. symbol" m) = Throw error ->
        NodejsBackend.fromMatches (VArr matches) = Throw error)) /\
  (forall first rest,
     matches = first :: rest ->
     Forall (fun q => usEquity q = false) matches ->
     truthy first = true ->
     (stringifiable (field "1. symbol" first) = true ->
        NodejsBackend.fromMatches (VArr matches) = Ok (NodejsBackend.apiSearchBody first)) /\
     (forall error, toStr (field "1. symbol" first) = Throw error ->
        NodejsBackend.fromMatches (VArr matches) = Throw error)).
Proof.
  split.
  - intros pre m post -> Hpre Hm.
    pose proof (NodejsBackend_selectLoop_first pre post m Hwf Hpre Hm) as Hsel.
    split; [done|].
    assert (NodejsBackend.fromMatches (VArr (pre ++ m :: post)) =
            let* logged := toStr (field "1. symbol" m) in
            Ok (NodejsBackend.apiSearchBody m)) as Hfrom.
    { unfold NodejsBackend.fromMatches. cbn [iterate bind]. rewrite Hsel. cbn [bind].
      pose proof (usEquity_truthy _ Hm) as Ht.
      destruct (pre ++ m :: post)%list; by rewrite !Ht. }
    rewrite Hfrom. unfold stringifiable. split.
    + by destruct (toStr (field "1. symbol" m)).
    + by intros error ->.
  - intros first rest -> Hnone Hfirst.
    assert (NodejsBackend.fromMatches (VArr (first :: rest)) =
            let* logged := toStr (field "1. symbol" first) in
            Ok (NodejsBackend.apiSearchBody first)) as Hfrom.
    { unfold NodejsBackend.fromMatches. cbn [iterate bind].
      pose proof (NodejsBackend_selectLoop_skip (first :: rest) [] Hwf Hnone) as Hsel.
      rewrite app_nil_r in Hsel. rewrite Hsel.
      cbn [NodejsBackend.selectLoop bind truthy]. by rewrite Hfirst. }
    rewrite Hfrom. unfold stringifiable. split.
    + by destruct (toStr (field "1. symbol" first)).
    + by intros error ->.
Qed.

Lemma NodejsBackend_first_us_equity_witness :
  NodejsBackend.selectLoop ibmMatches = Ok (symbolMatch "IBMX" "IBM Holdings Trust").
Proof.
  apply (proj1 (NodejsBackend_first_us_equity ibmMatches ltac:(repeat constructor))
           [] (symbolMatch "IBMX" "IBM Holdings Trust")
           [symbolMatch "IBM" "IBM Corp"; symbolMatch "IBMB" "IBM Bank";
            symbolMatch "IBMC" "IBM Common Inc"]);
    [reflexivity | constructor | reflexivity].
Defined.

(** C8 (as amended).  In server.js, for every search key other than
    "apple" and every list of well-formed matches with ASCII names that
    has a qualifying candidate (lowercased name contains the search key,
    region is United States, type contains Equity), the loop selects a
    qualifying candidate whose name is not longer than that of any other
    qualifying candidate and strictly shorter than that of every
    qualifying candidate before it: the earliest candidate of minimal name
    length.  The resolver answers with that candidate's fields when the
    company name is ASCII and no alias, the payload has no rate-limit
    marker, and the candidate's symbol can be printed for the log.  In
    nodejs-backend.js the loop selects the first match of region United
    States whose type contains Equity, whatever its name is. *)
Theorem shortest_name_selected (searchKey : string) (matches : list value)
  (Hkey : searchKey <> "apple")
  (Hwf : Forall (fun m => wellFormedMatch m = true) matches)
  (Hascii : Forall (fun m => asciiName m = true) matches)
  (Hsome : Exists (fun m => qualifying searchKey m = true) matches) :
  (exists pre m post,
     matches = (pre ++ m :: post)%list /\
     qualifying searchKey m = true /\
     Forall (fun q => qualifying searchKey q = true ->
                      (nameLength m < nameLength q)%nat) pre /\
     Forall (fun q => qualifying searchKey q = true ->
                      (nameLength m <= nameLength q)%nat) post /\
     Server.selectLoop searchKey VNull matches = Ok m /\
     (stringifiable (field "1. symbol" m) = true ->
        Server.fromMatches searchKey (VArr matches) = Ok (Server.apiSearchBody m) /\
        forall companyName data,
          ascii_only companyName = true ->
          trim (toLowerCase companyName) = searchKey ->
          nullish data = false ->
          truthy (field "Note" data) = false ->
          truthy (Server.commonCompaniesGet searchKey) = false ->
          field "bestMatches" data = VArr matches ->
          Server.searchSymbolOn companyName (Ok data) =
            Response 200 (Server.apiSearchBody m))) /\
  (forall pre m post,
     matches = (pre ++ m :: post)%list ->
     Forall (fun q => usEquity q = false) pre ->
     usEquity m = true ->
     NodejsBackend.selectLoop matches = Ok m).
Proof.
  split.
  - destruct (selectLoop_first searchKey matches Hkey Hwf)
      as [[Hnone _]|(pre & m & post & Hsplit & Hq & Hpre & Hpost & Hsel)].
    { exfalso. apply Exists_exists in Hsome as (q & Hin & Hq).
      rewrite Forall_forall in Hnone. specialize (Hnone q Hin). congruence. }
    exists pre, m, post. do 5 (split; [done|]).
    intros Hprint.
    assert (Server.fromMatches searchKey (VArr matches) =
            Ok (Server.apiSearchBody m)) as Hfrom.
    { unfold Server.fromMatches. cbn [iterate bind]. rewrite Hsel. cbn [bind].
      pose proof (qualifying_truthy _ _ Hq) as Ht.
      unfold stringifiable in Hprint.
      destruct (toStr (field "1. symbol" m)) as [printed|error] eqn:Hp; [|discriminate].
      destruct matches; [by destruct pre|]. rewrite !Ht. cbn [bind]. by rewrite Hp. }
    split; [done|].
    intros companyName data _ Hsk Hd Hnote Halias Hbest.
    unfold Server.searchSymbolOn. rewrite resolve_unmarked by done.
    rewrite Hsk, Halias, Hbest. unfold or_else. cbn [truthy]. by rewrite Hfrom.
  - intros pre m post -> Hpre Hm. by apply NodejsBackend_selectLoop_first.
Qed.

Lemma shortest_name_selected_witness :
  Server.selectLoop "ibm" VNull ibmMatches = Ok (symbolMatch "IBM" "IBM Corp").
Proof.
  destruct (shortest_name_selected "ibm" ibmMatches) as [Hserver _].
  - discriminate.
  - repeat constructor.
  - repeat constructor.
  - apply Exists_cons_hd. reflexivity.
  - destruct Hserver as (pre & m & post & _ & _ & _ & _ & Hsel & _).
    rewrite Hsel. f_equal. vm_compute in Hsel. by injection Hsel as <-.
Defined.

(** C8, the claim as stated fails: for the key "ibm" the sample matches
    have the qualifying candidate "IBM Corp", whose name is shorter than
    that of "IBM Holdings Trust", and yet nodejs-backend.js answers with
    the latter, the first United States equity; and for the key "tesla",
    which is not "apple", server.js answers from its alias table and
    selects no candidate at all. *)
Lemma first_us_equity_not_shortest :
  qualifying "ibm" (symbolMatch "IBM" "IBM Corp") = true /\
  (nameLength (symbolMatch "IBM" "IBM Corp") <
   nameLength (symbolMatch "IBMX" "IBM Holdings Trust"))%nat /\
  NodejsBackend.searchSymbolOn "ibm" (Ok (VObj [("bestMatches", VArr ibmMatches)])) =
    Response 200 (NodejsBackend.apiSearchBody (symbolMatch "IBMX" "IBM Holdings Trust")) /\
  qualifying "tesla" (symbolMatch "TL0.DEX" "Tesla Inc") = true /\
  Server.searchSymbolOn "tesla"
    (Ok (VObj [("bestMatches", VArr [symbolMatch "TL0.DEX" "Tesla Inc"])])) =
    Response 200 (Server.directMatchBody (VStr "TSLA") "tesla").
Proof. repeat split. vm_compute. lia. Qed.

(** The loop of server.js for the key "apple" passes over candidates that
    are no "apple inc" candidate with a [topMatch] that is [null] or one
    of them. *)
Lemma Server_selectLoop_apple_skip (pre : list value) :
  Forall (fun m => wellFormedMatch m = true) pre ->
  Forall (fun m => appleIncCandidate m = false) pre ->
  forall top,
    top = VNull \/ (wellFormedMatch top = true /\ truthy top = true) ->
    exists top',
      (top' = VNull \/ (wellFormedMatch top' = true /\ truthy top' = true)) /\
      forall rest,
        Server.selectLoop "apple" top (pre ++ rest) = Server.selectLoop "apple" top' rest.
Proof.
  intros Hw. induction Hw as [|m pre Hm _ IH]; intros Hq top Htop.
  - exists top. by split.
  - inversion Hq as [|? ? Hqm Hqrest]; subst.
    unfold appleIncCandidate in Hqm.
    destruct (qualifying "apple" m) eqn:Hqual.
    + cbn [andb] in Hqm.
      set (next := if (negb (truthy top) || Nat.ltb (nameLength m) (nameLength top))%bool
                   then m else top).
      destruct (IH Hqrest next) as (top' & Htop' & Heq).
      { subst next.
        destruct (negb (truthy top) || Nat.ltb (nameLength m) (nameLength top))%bool;
          [right; eauto using qualifying_truthy | done]. }
      exists top'. split; [done|]. intros rest.
      change ((m :: pre) ++ rest)%list with (m :: (pre ++ rest))%list.
      rewrite selectLoop_step by done. rewrite Hqual, Hqm. cbn [andb]. apply Heq.
    + destruct (IH Hqrest top Htop) as (top' & Htop' & Heq).
      exists top'. split; [done|]. intros rest.
      change ((m :: pre) ++ rest)%list with (m :: (pre ++ rest))%list.
      rewrite selectLoop_step by done. rewrite Hqual. apply Heq.
Qed.

(** X7 (the "apple" branch of the loop).  For the search key "apple" the
    loop of server.js stops at the first qualifying candidate whose
    lowercased name contains "apple inc", however short the names of the
    other candidates are. *)
Theorem Server_selectLoop_apple_inc (pre post : list value) (m : value)
  (Hpre : Forall (fun q => wellFormedMatch q = true) pre)
  (Hm : wellFormedMatch m = true)
  (Hnone : Forall (fun q => appleIncCandidate q = false) pre)
  (Hinc : appleIncCandidate m = true) :
  Server.selectLoop "apple" VNull (pre ++ m :: post) = Ok m.
Proof.
  destruct (Server_selectLoop_apple_skip pre Hpre Hnone VNull) as (top' & Htop' & ->);
    [by left|].
  rewrite selectLoop_step by done.
  unfold appleIncCandidate in Hinc. apply andb_prop in Hinc as [-> ->]. done.
Qed.

Lemma Server_selectLoop_apple_inc_witness :
  Server.selectLoop "apple" VNull
    [symbolMatch "APLE" "Apple REIT"; symbolMatch "AAPL" "Apple Inc";
     symbolMatch "APL" "Apple"] = Ok (symbolMatch "AAPL" "Apple Inc").
Proof.
  apply (Server_selectLoop_apple_inc [symbolMatch "APLE" "Apple REIT"]
           [symbolMatch "APL" "Apple"] (symbolMatch "AAPL" "Apple Inc"));
    [repeat constructor | reflexivity | repeat constructor | reflexivity].
Defined.

(** X8 (the "apple" branch is never reached).  For every company name
    whose search key is "apple" and every upstream outcome, the resolver
    of server.js answers with a fall-back or with AAPL from the alias
    table; it never answers from the matches. *)
Theorem Server_apple_never_from_matches (companyName : string) (up : upstream)
  (Hkey : trim (toLowerCase companyName) = "apple") :
  let r := Server.searchSymbolOn companyName up in
  ((exists error, body r = Server.failedBody error) \/
   body r = Server.rateLimitedBody \/
   body r = Server.directMatchBody (VStr "AAPL") companyName) /\
  field "source" (body r) <> VStr "api_search".
Proof.
  intros r. subst r. unfold Server.searchSymbolOn.
  destruct up as [data|error]; [|split; [left; eauto|discriminate]].
  unfold Server.resolve, getProp. cbn [bind].
  destruct (nullish data); cbn [bind]; [split; [left; eauto|discriminate]|].
  destruct (truthy (field "Note" data)); [split; [auto|discriminate]|].
  rewrite Hkey. cbn. split; [auto|discriminate].
Qed.

Lemma Server_apple_never_from_matches_witness :
  field "source" (body (Server.searchSymbolOn " Apple " (Ok appleSearch))) <> VStr "api_search".
Proof.
  exact (proj2 (Server_apple_never_from_matches " Apple " (Ok appleSearch) eq_refl)).
Defined.

End Selection.

(* ================================================================== *)
(** ** The news handler                                                 *)
(* ================================================================== *)

Section NewsHandler.

Import Server.

Lemma filterM_Throw_inv {A : Type} (p : A -> result bool) (l : list A) (e : exn) :
  filterM p l = Throw e -> exists x, In x l /\ p x = Throw e.
Proof.
  induction l as [|x l IH]; simpl; [discriminate|].
  destruct (p x) as [b|e'] eqn:Hx; cbn [bind].
  - destruct (filterM p l) as [kept|e'']; cbn [bind]; [discriminate|].
    intros [= <-]. destruct IH as (y & Hin & Hy); [done|]. exists y. auto.
  - intros [= <-]. exists x. auto.
Qed.

Lemma filterM_Throw_intro {A : Type} (p : A -> result bool) (l : list A) :
  Exists (fun x => exists e, p x = Throw e) l -> exists e, filterM p l = Throw e.
Proof.
  induction 1 as [x l [e Hx]|x l _ [e IH]]; simpl.
  - rewrite Hx. eauto.
  - destruct (p x); cbn [bind]; [|eauto]. rewrite IH. eauto.
Qed.

Lemma mapM_Throw_inv {A B : Type} (f : A -> result B) (l : list A) (e : exn) :
  mapM f l = Throw e -> exists x, In x l /\ f x = Throw e.
Proof.
  induction l as [|x l IH]; simpl; [discriminate|].
  destruct (f x) as [b|e'] eqn:Hx; cbn [bind].
  - destruct (mapM f l) as [out|e'']; cbn [bind]; [discriminate|].
    intros [= <-]. destruct IH as (y & Hin & Hy); [done|]. exists y. auto.
  - intros [= <-]. exists x. auto.
Qed.

Lemma getProp_Throw (v : value) (k : string) (e : exn) :
  getProp v k = Throw e -> is_TypeError e = true.
Proof. unfold getProp. destruct (nullish v); [|discriminate]. by intros [= <-]. Qed.

(** Splits a hypothesis [let* x := m in k = Throw e]. *)
Lemma bind_Throw_inv {A B : Type} (m : result A) (k : A -> result B) (e : exn) :
  bind m k = Throw e -> m = Throw e \/ exists a, m = Ok a /\ k a = Throw e.
Proof. destruct m as [a|e']; simpl; intros H; [right; exists a; auto | left; by injection H as <-]. Qed.

Ltac throw_inv H :=
  let a := fresh "a" in
  let Ha := fresh "Ha" in
  apply bind_Throw_inv in H;
  destruct H as [H|(a & Ha & H)]; [try (by apply getProp_Throw in H)|].

Lemma keepArticle_Throw (a : value) (e : exn) :
  keepArticle a = Throw e -> is_TypeError e = true.
Proof.
  unfold keepArticle, optChain. intros H.
  throw_inv H. destruct (negb (truthy a0)); [discriminate|].
  throw_inv H. throw_inv H.
  { destruct (nullish a1); [discriminate|]. by apply getProp_Throw in H. }
  destruct (negb (truthy a2)); [discriminate|].
  destruct (is_str "[Removed]" a0); [discriminate|].
  throw_inv H; [|discriminate].
  destruct a0; try discriminate; by injection H as <-.
Qed.

Lemma formatArticle_Throw (now : string) (a : value) (e : exn) :
  formatArticle now a = Throw e -> is_TypeError e = true.
Proof.
  unfold formatArticle. intros H.
  do 4 throw_inv H. throw_inv H.
  { destruct (truthy a3); [|discriminate].
    destruct a3; try discriminate; by injection H as <-. }
  do 3 throw_inv H. discriminate.
Qed.

Lemma formattedNews_Throw (now : string) (articles : list value) (e : exn) :
  formattedNews now articles = Throw e -> is_TypeError e = true.
Proof.
  unfold formattedNews, retained. intros H.
  throw_inv H.
  - throw_inv H; [|discriminate].
    apply filterM_Throw_inv in H as (x & _ & Hx). by apply keepArticle_Throw in Hx.
  - apply mapM_Throw_inv in H as (x & _ & Hx). by apply formatArticle_Throw in Hx.
Qed.

(** X9 (statuses of the news handler).  The news handler answers 200, 426
    or 500.  It answers 426 exactly when the outbound call was rejected
    with status 426; a payload it cannot process (no object, articles that
    are no array, an article whose fields have the wrong type) is answered
    500, never 426. *)
Theorem companyNews_statuses (now companyName : string) (up : upstream) :
  let r := companyNewsOn now companyName up in
  (status r = 200 \/ status r = 426 \/ status r = 500) /\
  (status r = 426 <->
     exists message data, up = Throw (AxiosError message (Some (426, data)))) /\
  (forall data, up = Ok data -> status r = 200 \/ status r = 500) /\
  (status r = 200 -> exists data, up = Ok data).
Proof.
  intros r. subst r. unfold companyNewsOn.
  destruct up as [data|error]; cbn [bind].
  - match goal with
    | |- context [match ?m with Ok _ => _ | Throw _ => _ end] =>
        destruct m as [json|e] eqn:Hblock
    end.
    + cbn [status]. repeat split; eauto; try lia; try discriminate.
      intros (message & d & H). discriminate.
    + assert (is_TypeError e = true) as He.
      { throw_inv Hblock. throw_inv Hblock.
        { destruct (or_else a (VArr [])); try discriminate; by injection Hblock as <-. }
        throw_inv Hblock; [by apply formattedNews_Throw in Hblock|].
        throw_inv Hblock. discriminate. }
      destruct e; [|discriminate]. cbn [err_status status].
      repeat split; eauto; try lia; try discriminate.
      intros (message & d & H). discriminate.
  - destruct error as [what|message [[st d]|]]; cbn [err_status status].
    + repeat split; eauto; try lia; try discriminate.
      intros (message & d & H). discriminate.
    + destruct (Z.eq_dec st 426) as [->|Hne].
      * cbn [status]. repeat split; eauto; try lia; discriminate.
      * assert (status match st with
                       | 426 => Response 426
                           (VObj [("error", VStr "NewsAPI requires upgrade for this request");
                                  ("details", VStr "Free tier has limitations on search parameters")])
                       | _ => Response 500
                           (VObj [("error", VStr "Failed to fetch company news");
                                  ("details", or_else (err_data_message (AxiosError message (Some (st, d))))
                                                (VStr (err_message (AxiosError message (Some (st, d))))));
                                  ("suggestion", VStr "Try a more specific company name or try again later")])
                       end = 500) as Hst.
        { destruct st as [|p|p]; try reflexivity.
          do 9 (destruct p as [p|p|]; try reflexivity). by exfalso. }
        rewrite Hst. repeat split; eauto; try lia; try discriminate.
        intros (message' & d' & H). injection H as _ -> _. done.
    + repeat split; eauto; try lia; try discriminate.
      intros (message' & d' & H). discriminate.
Qed.

(** X10 (failure details of the news handler).  A rejected call other than
    a 426 is answered 500; the details are the message of the upstream's
    error body when it has a truthy one, and the error's own message
    otherwise (a time-out, a network failure, an error body without a
    message). *)
Theorem companyNews_failure_details (now companyName : string) (error : exn)
  (Hstatus : err_status error <> Some 426) :
  let r := companyNewsOn now companyName (Throw error) in
  status r = 500 /\
  field "error" (body r) = VStr "Failed to fetch company news" /\
  (truthy (err_data_message error) = true ->
     field "details" (body r) = err_data_message error) /\
  (truthy (err_data_message error) = false ->
     field "details" (body r) = VStr (err_message error)) /\
  (err_status error = None -> field "details" (body r) = VStr (err_message error)).
Proof.
  intros r. subst r. unfold companyNewsOn. cbn [bind].
  assert (forall (a b : response),
            match err_status error with Some 426 => a | _ => b end = b) as Hsel.
  { intros a b. destruct (err_status error) as [st|]; [|done].
    destruct st as [|p|p]; try reflexivity.
    do 9 (destruct p as [p|p|]; try reflexivity). by exfalso. }
  rewrite Hsel. cbn [status body field lookup_prop String.eqb Ascii.eqb Bool.eqb].
  repeat split.
  - intros H. unfold or_else. by rewrite H.
  - intros H. unfold or_else. by rewrite H.
  - intros H. destruct error as [what|message [[st d]|]]; try done.
Qed.

Lemma companyNews_failure_details_witness :
  field "details" (body (companyNewsOn sampleNow "Apple" (Throw transportFailure))) =
    VStr "timeout of 10000ms exceeded".
Proof.
  apply (companyNews_failure_details sampleNow "Apple" transportFailure);
    [discriminate | reflexivity].
Defined.

(** X11 (missing and malformed article lists).  A payload without articles
    (the property is absent, null or otherwise falsy) is answered 200 with
    an empty news list; a payload that is null, or whose articles are a
    truthy value that is no array, is answered 500. *)
Theorem companyNews_articles_edge_cases (now companyName : string) (data : value) :
  (nullish data = false -> truthy (field "articles" data) = false ->
     companyNewsOn now companyName (Ok data) =
       Response 200 (VObj [("companyName", VStr companyName);
                           ("totalResults", or_else (field "totalResults" data) (VNum 0));
                           ("news", VArr [])])) /\
  (nullish data = true ->
     status (companyNewsOn now companyName (Ok data)) = 500) /\
  (nullish data = false -> truthy (field "articles" data) = true ->
   (forall items, field "articles" data <> VArr items) ->
     status (companyNewsOn now companyName (Ok data)) = 500).
Proof.
  unfold companyNewsOn, getProp. cbn [bind]. split; [|split].
  - intros -> Ha. cbn [bind]. unfold or_else at 1. rewrite Ha. reflexivity.
  - by intros ->.
  - intros -> Ha Hna. cbn [bind]. unfold or_else at 1. rewrite Ha.
    destruct (field "articles" data); try done. exfalso. by eapply Hna.
Qed.

(** X12 (one malformed article fails the request).  The filter visits every
    article of the payload, so a null element anywhere in the list, also
    behind the first eight articles that would be kept, makes the handler
    answer 500 instead of news. *)
Theorem companyNews_null_article (now companyName : string) (data : value)
  (articles : list value)
  (Hdata : nullish data = false)
  (Harticles : field "articles" data = VArr articles)
  (Hnull : Exists (fun a => nullish a = true) articles) :
  let r := companyNewsOn now companyName (Ok data) in
  status r = 500 /\
  field "error" (body r) = VStr "Failed to fetch company news" /\
  exists e, formattedNews now articles = Throw e.
Proof.
  intros r. subst r.
  destruct (filterM_Throw_intro keepArticle articles) as [e He].
  { eapply Exists_impl; [exact Hnull|]. intros a Ha.
    unfold keepArticle, getProp. rewrite Ha. eauto. }
  assert (formattedNews now articles = Throw e) as Hf.
  { unfold formattedNews, retained. by rewrite He. }
  pose proof (formattedNews_Throw _ _ _ Hf) as Hty.
  unfold companyNewsOn. cbn [bind]. rewrite getProp_Ok by done. cbn [bind].
  rewrite Harticles. unfold or_else. cbn [truthy asArray bind]. rewrite Hf. cbn [bind].
  destruct e; [|discriminate]. cbn. eauto.
Qed.

Lemma companyNews_null_article_witness :
  status (companyNewsOn sampleNow "Apple"
            (Ok (VObj [("articles", VArr (sampleArticles ++ [VNull]))]))) = 500.
Proof.
  apply (companyNews_null_article sampleNow "Apple"
           (VObj [("articles", VArr (sampleArticles ++ [VNull]))])
           (sampleArticles ++ [VNull]));
    [reflexivity | reflexivity |].
  apply Exists_app. right. by constructor.
Defined.

Lemma includes_T_cons (c : ascii) (r : string) :
  includes (String c r) "T" = (Ascii.eqb "T" c || includes r "T")%bool.
Proof.
  cbn [includes startsWith].
  replace (startsWith r "") with true by (by destruct r).
  by rewrite andb_true_r.
Qed.

Lemma includes_beforeT (s : string) : includes (beforeT s) "T" = false.
Proof.
  induction s as [|c s IH]; [done|]. cbn [beforeT].
  destruct (Ascii.eqb c "T") eqn:Hc; [done|].
  rewrite includes_T_cons, IH, Ascii.eqb_sym, Hc. done.
Qed.

Lemma startsWith_beforeT (s : string) : startsWith s (beforeT s) = true.
Proof.
  induction s as [|c s IH]; [done|]. cbn [beforeT].
  destruct (Ascii.eqb c "T"); [done|]. cbn [startsWith].
  by rewrite Ascii.eqb_refl, IH.
Qed.

(** X13 (date and summary of a formatted article).  Whenever the map
    callback returns, the date of its record is the text of the article's
    publication time before the first "T", or that of the current time
    when the article has none; it is a prefix of that time stamp and
    contains no "T".  The summary is the article's description, or the
    placeholder when the description is absent or empty, and is never
    empty. *)
Theorem formatArticle_date_summary (now : string) (a p : value)
  (Hformat : formatArticle now a = Ok p) :
  let stamp := if truthy (field "publishedAt" a)
               then text (field "publishedAt" a) else now in
  field "date" p = VStr (beforeT stamp) /\
  startsWith stamp (beforeT stamp) = true /\
  includes (beforeT stamp) "T" = false /\
  field "summary" p = or_else (field "description" a) (VStr "No summary available") /\
  truthy (field "summary" p) = true /\
  field "url" p = field "url" a /\
  field "imageUrl" p = field "urlToImage" a.
Proof.
  intros stamp. unfold formatArticle in Hformat.
  do 8 bind_inv Hformat. injection Hformat as <-.
  repeat match goal with
         | H : getProp _ _ = Ok _ |- _ => apply getProp_Ok_inv in H as [? ->]
         end.
  match goal with
  | H : (if truthy _ then splitT0 _ else Ok _) = Ok _ |- _ => rename H into Hdate
  end.
  cbn [field lookup_prop String.eqb Ascii.eqb Bool.eqb].
  repeat match goal with |- _ /\ _ => split end; try reflexivity.
  - subst stamp. destruct (truthy (field "publishedAt" a)); [|by injection Hdate as <-].
    destruct (field "publishedAt" a); try discriminate. by injection Hdate as <-.
  - apply startsWith_beforeT.
  - apply includes_beforeT.
  - unfold or_else. by destruct (truthy (field "description" a)) eqn:Hd.
Qed.

Lemma formatArticle_date_summary_witness :
  field "date" (VObj [("title", VStr "Apple unveils new chip");
                      ("source", VStr "Reuters");
                      ("date", VStr "2024-05-01");
                      ("summary", VStr "No summary available");
                      ("url", VStr "https://example.com/story");
                      ("imageUrl", VNull)]) = VStr "2024-05-01".
Proof.
  apply (formatArticle_date_summary sampleNow
           (sampleArticle "Apple unveils new chip" "Reuters")).
  reflexivity.
Defined.

End NewsHandler.

(* ================================================================== *)
(** ** The company-info handler and the health check                    *)
(* ================================================================== *)

Section InfoHandler.

Import Server.

(** The answer of the company-info handler once the classification has
    let the payload through: 200 with the formatted info when the name to
    print converts to a string, the catch's 500 when it does not. *)
Lemma companyInfoOn_formatting (symbol : string) (data : value) :
  nullish data = false ->
  formattingReached data = true ->
  (forall name, toStr (or_else (field "Name" data) (VStr symbol)) = Ok name ->
     exists info, companyInfo symbol data = Ok info /\
                  companyInfoOn symbol (Ok data) = Response 200 info) /\
  (forall error, toStr (or_else (field "Name" data) (VStr symbol)) = Throw error ->
     companyInfoOn symbol (Ok data) =
       Response 500
         (VObj [("error", VStr "Failed to fetch company information");
                ("details", VStr (err_message error));
                ("suggestion", VStr "Please try again or check if the symbol exists")])).
Proof.
  intros Hd Hreach. unfold formattingReached in Hreach.
  apply andb_prop in Hreach as [Hreach Hsome]. apply andb_prop in Hreach as [Hn Hi].
  apply negb_true_iff in Hn, Hi.
  unfold companyInfoOn. cbn [bind]. rewrite !getProp_Ok by done. cbn [bind].
  rewrite Hn, Hi.
  replace (negb (truthy (field "Name" data)) && negb (truthy (field "Symbol" data)))%bool
    with false
    by (by destruct (truthy (field "Name" data)), (truthy (field "Symbol" data))).
  unfold companyInfo, annualReport. split.
  - intros name Hname.
    destruct (truthy (field "Symbol" data)); cbn [bind]; rewrite ?Hname; cbn [bind]; eauto.
  - intros error Hname.
    destruct (truthy (field "Symbol" data)); cbn [bind]; rewrite ?Hname; cbn [bind]; done.
Qed.

(** The answer to a payload that the classification stops. *)
Lemma companyInfoOn_classified (symbol : string) (data : value) :
  nullish data = false ->
  formattingReached data = false ->
  status (companyInfoOn symbol (Ok data)) = 429 \/
  status (companyInfoOn symbol (Ok data)) = 400 \/
  status (companyInfoOn symbol (Ok data)) = 404.
Proof.
  intros Hd Hreach. unfold formattingReached in Hreach.
  unfold companyInfoOn. cbn [bind]. rewrite !getProp_Ok by done. cbn [bind].
  destruct (truthy (field "Note" data)); [by left|].
  destruct (truthy (field "Information" data)); [right; by left|].
  cbn [negb andb] in Hreach. apply orb_false_elim in Hreach as [-> ->].
  right. by right.
Qed.

(** X14 (statuses of the company-info handler).  The company-info handler
    answers 200, 400, 404, 429 or 500.  A failed call is answered 500 with
    the error's message as details.  A resolved call is answered 500
    exactly when the payload is null, or the classification lets it
    through to the formatting and the name to print ([Name], or the
    request symbol) cannot be converted to a string; this for payloads
    whose printed name is ASCII text. *)
Theorem companyInfo_statuses (symbol : string) (up : upstream) :
  let r := companyInfoOn symbol up in
  (status r = 200 \/ status r = 400 \/ status r = 404 \/ status r = 429 \/
   status r = 500) /\
  (forall error, up = Throw error ->
     status r = 500 /\ field "details" (body r) = VStr (err_message error)) /\
  (forall data, up = Ok data ->
     (forall name, toStr (or_else (field "Name" data) (VStr symbol)) = Ok name ->
        ascii_only name = true) ->
     (status r = 500 <->
        nullish data = true \/
        (formattingReached data = true /\
         stringifiable (or_else (field "Name" data) (VStr symbol)) = false))).
Proof.
  intros r. subst r.
  destruct up as [data|error].
  2:{ cbn. split; [auto 10|]. split; [|discriminate]. by intros e [= <-]. }
  destruct (nullish data) eqn:Hd.
  { unfold companyInfoOn, getProp. cbn [bind]. rewrite Hd. cbn.
    split; [auto 10|]. split; [discriminate|]. intros d [= <-] _. split; auto. }
  destruct (formattingReached data) eqn:Hreach.
  - destruct (companyInfoOn_formatting symbol data Hd Hreach) as [Hok Hthrow].
    unfold stringifiable.
    destruct (toStr (or_else (field "Name" data) (VStr symbol))) as [name|error] eqn:Hname.
    + destruct (Hok name eq_refl) as (info & _ & ->). cbn [status].
      split; [auto 10|]. split; [discriminate|]. intros d [= <-] _.
      split; [discriminate|]. intros [Hnull|[_ Hfalse]]; [congruence|].
      rewrite Hname in Hfalse. discriminate.
    + rewrite (Hthrow error eq_refl). cbn [status].
      split; [auto 10|]. split; [discriminate|]. intros d [= <-] _.
      split; [|done]. intros _. right. by rewrite Hname.
  - pose proof (companyInfoOn_classified symbol data Hd Hreach) as Hclass.
    split; [destruct Hclass as [H|[H|H]]; rewrite H; auto 10|].
    split; [discriminate|]. intros d [= <-] _. split.
    + intros H500. rewrite H500 in Hclass. by destruct Hclass as [?|[?|?]].
    + intros [Hnull|[Hr _]]; congruence.
Qed.

Lemma truthy_or_else (v fallback : value) :
  truthy fallback = true -> truthy (or_else v fallback) = true.
Proof. intros H. unfold or_else. by destruct (truthy v) eqn:Hv. Qed.

Lemma toUpperCase_nonempty (s : string) : s <> "" -> truthy (VStr (toUpperCase s)) = true.
Proof. by destruct s. Qed.

(** X15 (no empty field in a company-info answer).  For a non-empty ASCII
    request symbol and a payload whose name to print ([Name], or the
    request symbol) is ASCII text whenever it converts to a string:
    whenever the company info is built, each of its eight text fields is
    non-empty (truthy): a missing or empty upstream field is replaced by
    its placeholder, independently of the others; the annual report is
    null exactly when the payload has no symbol, and is an object
    otherwise.  The company info is built when the payload has no symbol
    or the name to print converts to a string, and building it throws
    only when the payload has a symbol and that conversion throws. *)
Theorem companyInfo_fields_present (symbol : string) (data : value)
  (Hsymbol : symbol <> "")
  (Hascii : ascii_only symbol = true)
  (Hname : forall name,
     toStr (or_else (field "Name" data) (VStr symbol)) = Ok name ->
     ascii_only name = true) :
  (forall info, companyInfo symbol data = Ok info ->
     Forall (fun key => truthy (field key info) = true)
       ["name"; "symbol"; "sector"; "industry"; "marketCap"; "description";
        "exchange"; "country"] /\
     (truthy (field "Symbol" data) = false <-> field "annualReport" info = VNull) /\
     (truthy (field "Symbol" data) = true -> truthy (field "annualReport" info) = true) /\
     (truthy (field "Symbol" data) = false ->
        field "symbol" info = VStr (toUpperCase symbol))) /\
  (truthy (field "Symbol" data) = false \/
   stringifiable (or_else (field "Name" data) (VStr symbol)) = true ->
     exists info, companyInfo symbol data = Ok info) /\
  (forall error, companyInfo symbol data = Throw error ->
     truthy (field "Symbol" data) = true /\
     toStr (or_else (field "Name" data) (VStr symbol)) = Throw error).
Proof.
  unfold companyInfo, annualReport, stringifiable. split; [|split].
  - intros info Hinfo. bind_inv Hinfo. injection Hinfo as <-.
    cbn [field lookup_prop String.eqb Ascii.eqb Bool.eqb].
    split; [|split; [|split]].
    + repeat constructor; apply truthy_or_else; try reflexivity.
      by apply toUpperCase_nonempty.
    + destruct (truthy (field "Symbol" data)).
      * do 2 bind_inv Hm. injection Hm as <-. split; done.
      * injection Hm as <-. split; done.
    + intros Hs. rewrite Hs in Hm. do 2 bind_inv Hm. by injection Hm as <-.
    + intros H. unfold or_else. by rewrite H.
  - intros [-> | Hprint]; [cbn [bind]; eauto|].
    destruct (toStr (or_else (field "Name" data) (VStr symbol))); [|discriminate].
    destruct (truthy (field "Symbol" data)); cbn [bind]; eauto.
  - intros error Hthrow.
    destruct (truthy (field "Symbol" data)); [|discriminate]. split; [done|].
    destruct (toStr (or_else (field "Name" data) (VStr symbol))); [discriminate|].
    cbn [bind] in Hthrow. by injection Hthrow as <-.
Qed.

Lemma companyInfo_fields_present_witness :
  exists info,
    companyInfo "ibm" (VObj [("Name", VStr "IBM Corp")]) = Ok info /\
    field "symbol" info = VStr "IBM".
Proof.
  destruct (companyInfo_fields_present "ibm" (VObj [("Name", VStr "IBM Corp")]))
    as (Hfields & Htotal & _);
    [discriminate | reflexivity | by intros name [= <-] |].
  destruct Htotal as [info Hinfo]; [by left|].
  exists info. split; [done|].
  apply (Hfields info Hinfo). reflexivity.
Defined.

Lemma all_chars_app (p : ascii -> bool) (a b : string) :
  all_chars p (a ++ b) = (all_chars p a && all_chars p b)%bool.
Proof. induction a as [|c a IH]; simpl; [done|]. by rewrite IH, andb_assoc. Qed.

Lemma hex_digit_safe (c : ascii) :
  uri_safe (hex_digit (nat_of_ascii c / 16)) = true /\
  uri_safe (hex_digit (nat_of_ascii c mod 16)) = true.
Proof. destruct c as [[] [] [] [] [] [] [] []]; vm_compute; by split. Qed.

Lemma encodeURIComponent_safe (s : string) :
  all_chars uri_safe (encodeURIComponent s) = true.
Proof.
  induction s as [|c s IH]; [done|]. cbn [encodeURIComponent].
  destruct (uri_unreserved c) eqn:Hc.
  - cbn [all_chars]. unfold uri_safe at 1. by rewrite Hc, IH.
  - cbn [all_chars]. destruct (hex_digit_safe c) as [-> ->]. by rewrite IH.
Qed.

(** X16 (the annual-report link).  When the payload has a symbol and the
    name to print ([Name], or the request symbol as given when the payload
    has no name) converts to ASCII text, the link of the annual report is
    the fixed search address followed by the encoded name, and the encoded
    part consists only of letters, digits, [- _ . ! ~ * ' ( )] and percent
    escapes: no character of the upstream name reaches the link
    unencoded; the title is the printed name followed by
    " Annual Report 2023".  When the conversion throws, so does the
    building of the annual report. *)
Theorem annualReport_link (symbol : string) (data : value)
  (Hsym : truthy (field "Symbol" data) = true) :
  (forall name,
     toStr (or_else (field "Name" data) (VStr symbol)) = Ok name ->
     ascii_only name = true ->
     exists report,
       annualReport symbol data = Ok report /\
       field "url" report =
         VStr ("https://www.sec.gov/edgar/search/#/entityName=" ++ encodeURIComponent name) /\
       all_chars uri_safe (encodeURIComponent name) = true /\
       field "title" report = VStr (name ++ " Annual Report 2023") /\
       (truthy (field "Name" data) = false -> name = symbol)) /\
  (forall error,
     toStr (or_else (field "Name" data) (VStr symbol)) = Throw error ->
     annualReport symbol data = Throw error).
Proof.
  unfold annualReport. rewrite Hsym. split.
  - intros name Hname _. rewrite Hname. cbn [bind]. eexists. split; [done|].
    repeat split.
    + apply encodeURIComponent_safe.
    + intros H. unfold or_else in Hname. rewrite H in Hname. by injection Hname as <-.
  - by intros error ->.
Qed.

Lemma annualReport_link_witness :
  exists report,
    annualReport "t" (VObj [("Symbol", VStr "T"); ("Name", VStr "AT&T Inc")]) = Ok report /\
    field "url" report =
      VStr "https://www.sec.gov/edgar/search/#/entityName=AT%26T%20Inc".
Proof.
  destruct (proj1 (annualReport_link "t"
                     (VObj [("Symbol", VStr "T"); ("Name", VStr "AT&T Inc")]) eq_refl)
              "AT&T Inc" eq_refl eq_refl)
    as (report & Hreport & Hurl & _).
  exists report. by split.
Defined.

(** X17 (the health check and the keys).  Whatever the environment is, the
    keys in use are non-empty: a variable that is not set, or is set to
    the empty string, gives the built-in key, and a non-empty variable
    gives its own value.  So the health check of server.js answers 200
    and reports both upstream APIs as configured in every environment. *)
Theorem health_always_configured (env : environment) (now : string) :
  status (health env now) = 200 /\
  field "newsAPI" (field "apis" (body (health env now))) = VBool true /\
  field "alphaVantage" (field "apis" (body (health env now))) = VBool true /\
  (forall key, env "NEWS_API_KEY" = Some key -> key <> "" -> newsApiKey env = VStr key) /\
  (env "NEWS_API_KEY" = None \/ env "NEWS_API_KEY" = Some "" ->
     newsApiKey env = VStr NEWS_API_KEY) /\
  (forall key, env "ALPHA_VANTAGE_KEY" = Some key -> key <> "" ->
     alphaVantageKey env = VStr key) /\
  (env "ALPHA_VANTAGE_KEY" = None \/ env "ALPHA_VANTAGE_KEY" = Some "" ->
     alphaVantageKey env = VStr ALPHA_VANTAGE_KEY) /\
  (env "PORT" = None \/ env "PORT" = Some "" -> port env = VNum 3001).
Proof.
  assert (forall name fallback, truthy fallback = true ->
            truthy (envOr env name fallback) = true) as Hkey.
  { intros name fallback Hf. unfold envOr. destruct (env name); [|done].
    by apply truthy_or_else. }
  assert (forall name fallback key, env name = Some key -> key <> "" ->
            envOr env name fallback = VStr key) as Hset.
  { intros name fallback key He Hne. unfold envOr, or_else. rewrite He. simpl.
    by rewrite eqb_string_false. }
  assert (forall name fallback, env name = None \/ env name = Some "" ->
            envOr env name fallback = fallback) as Hunset.
  { intros name fallback [He|He]; unfold envOr; by rewrite He. }
  unfold health, newsApiKey, alphaVantageKey, port.
  cbn [status body field lookup_prop String.eqb Ascii.eqb Bool.eqb].
  rewrite !Hkey by done. repeat split; eauto.
Qed.

End InfoHandler.

(* ================================================================== *)
(** ** Malformed match lists and the letter case of a symbol            *)
(* ================================================================== *)

Section Robustness.

Import Server.

(** Without the "apple" branch the loop of server.js visits every match,
    so a null element makes it throw. *)
Lemma selectLoop_null_element (searchKey : string) (matches : list value) :
  searchKey <> "apple" ->
  Exists (fun m => nullish m = true) matches ->
  forall top, exists e, selectLoop searchKey top matches = Throw e.
Proof.
  intros Hkey Hex. apply eqb_string_false in Hkey.
  induction Hex as [m rest Hm|m rest _ IH]; intros top; cbn [selectLoop].
  - unfold getProp. rewrite Hm. cbn [bind]. eauto.
  - destruct (getProp m "2. name") as [name|e]; cbn [bind]; [|eauto].
    destruct (toLowerCaseV (or_else name (VStr ""))) as [matchName|e]; cbn [bind]; [|eauto].
    destruct (getProp m "4. region") as [region0|e]; cbn [bind]; [|eauto].
    destruct (getProp m "3. type") as [type0|e]; cbn [bind]; [|eauto].
    match goal with
    | |- context [bind ?c _] => destruct c as [q|e]; cbn [bind]; [|eauto]
    end.
    destruct q; [|apply IH]. rewrite Hkey. cbn [andb].
    match goal with
    | |- context [bind ?c _] => destruct c as [shorter|e]; cbn [bind]; [|eauto]
    end.
    apply IH.
Qed.

(** X18 (a malformed match list degrades to the fall-back).  When the name
    is no alias and the payload's matches are a truthy value that cannot
    be iterated (an object, a number, [true]), or a list with a null
    element, the resolver of server.js answers 200 with symbol null,
    fallback true and the error text; it does not answer no match. *)
Theorem searchSymbol_malformed_matches (companyName : string) (data : value)
  (Hdata : nullish data = false)
  (Hnote : truthy (field "Note" data) = false)
  (Halias : truthy (commonCompaniesGet (trim (toLowerCase companyName))) = false) :
  let r := searchSymbolOn companyName (Ok data) in
  (truthy (field "bestMatches" data) = true ->
   (forall items, field "bestMatches" data <> VArr items) ->
   (forall s, field "bestMatches" data <> VStr s) ->
     exists what, r = Response 200 (failedBody (TypeError what)) /\
                  field "symbol" (body r) = VNull /\
                  field "fallback" (body r) = VBool true) /\
  (forall items,
     field "bestMatches" data = VArr items ->
     Exists (fun m => nullish m = true) items ->
     exists e, r = Response 200 (failedBody e) /\
               field "symbol" (body r) = VNull /\
               field "fallback" (body r) = VBool true).
Proof.
  intros r. subst r. unfold searchSymbolOn. rewrite resolve_unmarked by done.
  rewrite Halias. split.
  - intros Ht Harr Hstr. unfold or_else. rewrite Ht. unfold fromMatches.
    destruct (field "bestMatches" data); try done; cbn [iterate bind]; eauto.
    + exfalso. by eapply Hstr.
    + exfalso. by eapply Harr.
  - intros items -> Hex. unfold or_else. cbn [truthy].
    unfold fromMatches. cbn [iterate bind].
    destruct (selectLoop_null_element (trim (toLowerCase companyName)) items) with (top := VNull)
      as [e He]; [|done|].
    { intros Hk. rewrite Hk in Halias. discriminate. }
    rewrite He. cbn [bind]. eauto.
Qed.

Lemma searchSymbol_malformed_matches_witness :
  exists what,
    searchSymbolOn "Initech" (Ok (VObj [("bestMatches", VNum 7)])) =
      Response 200 (failedBody (TypeError what)) /\
    field "symbol" (body (searchSymbolOn "Initech" (Ok (VObj [("bestMatches", VNum 7)])))) =
      VNull /\
    field "fallback" (body (searchSymbolOn "Initech" (Ok (VObj [("bestMatches", VNum 7)])))) =
      VBool true.
Proof.
  apply (proj1 (searchSymbol_malformed_matches "Initech" (VObj [("bestMatches", VNum 7)])
                  eq_refl eq_refl eq_refl));
    [reflexivity | discriminate | discriminate].
Defined.

Lemma upper_upper_ascii (c : ascii) : upper_ascii (upper_ascii c) = upper_ascii c.
Proof. by destruct c as [[] [] [] [] [] [] [] []]. Qed.

Lemma toUpperCase_idempotent (s : string) : toUpperCase (toUpperCase s) = toUpperCase s.
Proof.
  unfold toUpperCase. induction s as [|c s IH]; simpl; [done|].
  by rewrite upper_upper_ascii, IH.
Qed.

(** X19 (the letter case of the requested symbol).  The company-info
    handler sends the symbol in upper case, so a symbol and its upper-case
    form give the same upstream request and the same status; the answers
    are equal as well unless the payload has a symbol and no name, where
    the annual report is titled with the symbol as it was typed. *)
Theorem companyInfo_symbol_case (net : request -> upstream) (symbol : string) :
  fst (companyInfoHandler net (toUpperCase symbol)) = fst (companyInfoHandler net symbol) /\
  status (snd (companyInfoHandler net (toUpperCase symbol))) =
    status (snd (companyInfoHandler net symbol)) /\
  (forall data,
     net (infoRequest symbol) = Ok data ->
     truthy (field "Name" data) = true \/ truthy (field "Symbol" data) = false ->
     snd (companyInfoHandler net (toUpperCase symbol)) = snd (companyInfoHandler net symbol)) /\
  (forall error,
     net (infoRequest symbol) = Throw error ->
     snd (companyInfoHandler net (toUpperCase symbol)) = snd (companyInfoHandler net symbol)).
Proof.
  assert (infoRequest (toUpperCase symbol) = infoRequest symbol) as Hreq.
  { unfold infoRequest. by rewrite toUpperCase_idempotent. }
  assert (forall data, truthy (field "Name" data) = true ->
            companyInfoOn (toUpperCase symbol) (Ok data) = companyInfoOn symbol (Ok data))
    as Hnamed.
  { intros data Hname.
    assert (forall fallback, or_else (field "Name" data) fallback = field "Name" data)
      as Hor by (intros fallback; unfold or_else; by rewrite Hname).
    unfold companyInfoOn, companyInfo, annualReport. cbn [bind].
    by rewrite toUpperCase_idempotent, !Hor. }
  assert (forall data, truthy (field "Name" data) = false ->
            truthy (field "Symbol" data) = false ->
            companyInfoOn (toUpperCase symbol) (Ok data) = companyInfoOn symbol (Ok data))
    as Hunnamed.
  { intros data Hname Hsym. unfold companyInfoOn, getProp. cbn [bind].
    destruct (nullish data); cbn [bind]; [done|].
    destruct (truthy (field "Note" data)); [done|].
    destruct (truthy (field "Information" data)); [done|].
    by rewrite Hname, Hsym. }
  unfold companyInfoHandler. cbn [fst snd]. rewrite Hreq.
  split; [done|]. split; [|split].
  - destruct (net (infoRequest symbol)) as [data|error]; [|done].
    destruct (truthy (field "Name" data)) eqn:Hname; [by rewrite Hnamed|].
    destruct (truthy (field "Symbol" data)) eqn:Hsym; [|by rewrite Hunnamed].
    unfold companyInfoOn, getProp. cbn [bind].
    destruct (nullish data); cbn [bind]; [done|].
    destruct (truthy (field "Note" data)); [done|].
    destruct (truthy (field "Information" data)); [done|].
    rewrite Hname, Hsym. cbn [negb andb].
    unfold companyInfo, annualReport, or_else. by rewrite Hname, Hsym.
  - intros data -> [Hname|Hsym]; [by apply Hnamed|].
    destruct (truthy (field "Name" data)) eqn:Hname; [by apply Hnamed|].
    by apply Hunnamed.
  - by intros error ->.
Qed.

End Robustness.
